(** * WINC1500 HTTP file downloader: the download orchestration state machine

    A shallow embedding of [src/WINC1500_HTTP/src/main21.c]: the download
    state bitmask, the byte counters, the HTTP-client and Wi-Fi callbacks,
    [start_download], [store_file_packet], the countdown timers and the
    watchdog block of the main loop.

    Conventions.
    - The three file-scope variables [down_state], [http_file_size] and
      [received_file_size], and the tick counter [milliSeconds], are the
      fields of a record [world] that every function takes and returns.
    - A [uint32_t] is a [Z] in [0, 2^32); every C addition on one is written
      with its reduction modulo [2^32] ([u32]).
    - Calls that leave the translation unit ([printf], the HTTP client, the
      Wi-Fi driver, the LED) do not change the variables above; they are
      recorded, in program order, in the field [trace].  The calls of
      [TimerCountdown] in [main] are recorded too, so that the order of
      requests and timer accesses can be stated. *)

From Stdlib Require Import ZArith List Bool Lia.
Import ListNotations.
Local Open Scope Z_scope.

(** ** Constants of the absent header [main.h] *)

(** [main.h] declares [download_state] and [MAIN_BUFFER_MAX_SIZE]; it is not
    part of the sources at hand.  Its constants are taken as parameters: any
    values will do as long as [NOT_READY] is the empty mask and the five
    flags are non-empty and pairwise disjoint bit sets (the data model's
    "independent boolean flags"). *)
Class MainH : Type := {
  NOT_READY : Z;
  WIFI_CONNECTED : Z;
  GET_REQUESTED : Z;
  DOWNLOADING : Z;
  COMPLETED : Z;
  CANCELED : Z;
  MAIN_BUFFER_MAX_SIZE : Z;
  NOT_READY_empty : NOT_READY = 0;
  flags_nonempty :
    Forall (fun m => m <> 0)
           [WIFI_CONNECTED; GET_REQUESTED; DOWNLOADING; COMPLETED; CANCELED];
  flags_disjoint :
    ForallOrdPairs (fun a b => Z.land a b = 0)
           [WIFI_CONNECTED; GET_REQUESTED; DOWNLOADING; COMPLETED; CANCELED];
  MAIN_BUFFER_MAX_SIZE_range : 0 <= MAIN_BUFFER_MAX_SIZE < 2 ^ 32
}.

(** The values of the vendor's HTTP downloader example, used for the
    concrete runs below. *)
#[refine] Instance asf_main_h : MainH := {
  NOT_READY := 0;
  WIFI_CONNECTED := 0x02;
  GET_REQUESTED := 0x04;
  DOWNLOADING := 0x08;
  COMPLETED := 0x10;
  CANCELED := 0x20;
  MAIN_BUFFER_MAX_SIZE := 1446
}.
Proof.
  - reflexivity.
  - repeat constructor; discriminate.
  - repeat constructor.
  - split; [discriminate | reflexivity].
Defined.

(** [EAGAIN] of [<errno.h>] (newlib and Linux agree on 11). *)
Definition EAGAIN : Z := 11.

(** ** Machine integers *)

Definition u32 (x : Z) : Z := x mod 2 ^ 32.

(** Conversion of a 32-bit pattern to [long] (two's complement). *)
Definition to_long (x : Z) : Z :=
  if u32 x <? 2 ^ 31 then u32 x else u32 x - 2 ^ 32.

(** ** Console lines and external calls *)

(** One constructor per [printf] of the source, with its arguments. *)
Inductive message : Type :=
| MsgWifiNotConnected
| MsgRequestSentAlready
| MsgRunningAlready
| MsgSendingRequest
| MsgEmptyData
| MsgPacket (length total size : Z)
| MsgDownloaded
| MsgSockConnected
| MsgRequestCompleted
| MsgResponse (response_code content_length : Z)
| MsgCompletedResponse
| MsgCompletedChunked
| MsgDisconnect (reason : Z)
| MsgWifiConnected
| MsgWifiDisconnected
| MsgIpAddress (a b c d : Z)
| MsgTimeLeft (seconds : Z)
| MsgTimerExpired
| MsgHeader
| MsgNeedsInternet
| MsgConnecting.

Inductive timer_id : Type := WatchdogTimer | OneSecondTimer.

Inductive action : Type :=
| Printf (m : message)
| HttpSendRequest            (* http_client_send_request(.., URL, GET, ..) *)
| HttpClose                  (* http_client_close *)
| WifiRequestDhcp            (* m2m_wifi_request_dhcp_client *)
| WifiConnect                (* m2m_wifi_connect *)
| LedToggle                  (* port_pin_toggle_output_level *)
| TimerArm (t : timer_id) (seconds : Z).   (* TimerCountdown *)

Definition is_request (a : action) : bool :=
  match a with HttpSendRequest => true | _ => false end.

Definition is_close (a : action) : bool :=
  match a with HttpClose => true | _ => false end.

Definition is_timer_access (a : action) : bool :=
  match a with TimerArm _ _ => true | _ => false end.

Definition count (p : action -> bool) (t : list action) : nat :=
  length (filter p t).

(** ** The program state *)

Record world : Type := World {
  down_state : Z;
  http_file_size : Z;
  received_file_size : Z;
  milliSeconds : Z;
  trace : list action
}.

Definition set_down_state (s : Z) (w : world) : world :=
  World s (http_file_size w) (received_file_size w) (milliSeconds w) (trace w).

Definition set_http_file_size (n : Z) (w : world) : world :=
  World (down_state w) n (received_file_size w) (milliSeconds w) (trace w).

Definition set_received_file_size (n : Z) (w : world) : world :=
  World (down_state w) (http_file_size w) n (milliSeconds w) (trace w).

Definition emit (a : action) (w : world) : world :=
  World (down_state w) (http_file_size w) (received_file_size w)
        (milliSeconds w) (trace w ++ [a]).

Definition printf (m : message) : world -> world := emit (Printf m).

(** The number of HTTP requests issued so far. *)
Definition requests (w : world) : nat := count is_request (trace w).

(** The number of times the transport was closed so far. *)
Definition closes (w : world) : nat := count is_close (trace w).

Section Downloader.

Context {H : MainH}.

(** The variables as [main] finds them (static initialisers). *)
Definition boot : world := World NOT_READY 0 0 0 [].

(** ** Download state tracker *)

Definition init_state (w : world) : world := set_down_state NOT_READY w.

Definition clear_state (mask : Z) (w : world) : world :=
  set_down_state (Z.land (down_state w) (Z.lnot mask)) w.

Definition add_state (mask : Z) (w : world) : world :=
  set_down_state (Z.lor (down_state w) mask) w.

Definition is_state_set (mask : Z) (w : world) : bool :=
  negb (Z.land (down_state w) mask =? 0).

(** ** Download orchestrator *)

Definition start_download (w : world) : world :=
  if negb (is_state_set WIFI_CONNECTED w) then
    printf MsgWifiNotConnected w
  else if is_state_set GET_REQUESTED w then
    printf MsgRequestSentAlready w
  else if is_state_set DOWNLOADING w then
    printf MsgRunningAlready w
  else
    emit HttpSendRequest (printf MsgSendingRequest w).

(** ** Progress reporter *)

(** The packet itself is never read by the program; [data] is [None] for a
    null pointer and [Some bytes] otherwise.  Past the first test the pointer
    is known to be non-null, so the second test [data != NULL] of the source
    always succeeds there. *)
Definition store_file_packet (data : option (list Z)) (length : Z)
    (w : world) : world :=
  match data with
  | None => printf MsgEmptyData w
  | Some _ =>
    if length <? 1 then printf MsgEmptyData w
    else
      let w1 :=
        if negb (is_state_set DOWNLOADING w)
        then add_state DOWNLOADING (set_received_file_size 0 w)
        else w in
      let w2 := set_received_file_size (u32 (received_file_size w1 + length)) w1 in
      let w3 := printf (MsgPacket length (received_file_size w2)
                                  (http_file_size w2)) w2 in
      if http_file_size w3 <=? received_file_size w3
      then add_state COMPLETED (printf MsgDownloaded w3)
      else w3
  end.

(** ** Event dispatch layer: the HTTP client *)

(** The event type together with the member of [union http_client_data]
    that belongs to it.  [HTTP_CLIENT_CALLBACK_OTHER] stands for any [type]
    the [switch] has no case for. *)
Inductive http_client_event : Type :=
| HTTP_CLIENT_CALLBACK_SOCK_CONNECTED
| HTTP_CLIENT_CALLBACK_REQUESTED
| HTTP_CLIENT_CALLBACK_RECV_RESPONSE
    (response_code content_length : Z) (content : option (list Z))
| HTTP_CLIENT_CALLBACK_RECV_CHUNKED_DATA
    (data : option (list Z)) (length : Z) (is_complete : Z)
| HTTP_CLIENT_CALLBACK_DISCONNECTED (reason : Z)
| HTTP_CLIENT_CALLBACK_OTHER.

Definition http_client_callback (e : http_client_event) (w : world) : world :=
  match e with
  | HTTP_CLIENT_CALLBACK_SOCK_CONNECTED =>
      printf MsgSockConnected w
  | HTTP_CLIENT_CALLBACK_REQUESTED =>
      add_state GET_REQUESTED (printf MsgRequestCompleted w)
  | HTTP_CLIENT_CALLBACK_RECV_RESPONSE response_code content_length content =>
      let w1 := printf (MsgResponse response_code content_length) w in
      if response_code =? 200 then
        let w2 := set_received_file_size 0
                    (set_http_file_size content_length w1) in
        if content_length <=? MAIN_BUFFER_MAX_SIZE then
          add_state COMPLETED
            (emit HttpClose
               (store_file_packet content content_length
                  (printf MsgCompletedResponse w2)))
        else w2
      else
        add_state CANCELED w1
  | HTTP_CLIENT_CALLBACK_RECV_CHUNKED_DATA data length is_complete =>
      let w1 := store_file_packet data length w in
      if negb (is_complete =? 0) then
        add_state COMPLETED (emit HttpClose (printf MsgCompletedChunked w1))
      else w1
  | HTTP_CLIENT_CALLBACK_DISCONNECTED reason =>
      let w1 := printf (MsgDisconnect reason) w in
      if reason =? - EAGAIN then
        let w2 := if is_state_set DOWNLOADING w1
                  then clear_state DOWNLOADING w1 else w1 in
        let w3 := if is_state_set GET_REQUESTED w2
                  then clear_state GET_REQUESTED w2 else w2 in
        start_download w3
      else w1
  | HTTP_CLIENT_CALLBACK_OTHER => w
  end.

(** ** Event dispatch layer: the Wi-Fi driver *)

(** [u8CurrState] of [tstrM2mWifiStateChanged]. *)
Inductive m2m_conn_state : Type :=
| M2M_WIFI_DISCONNECTED
| M2M_WIFI_CONNECTED
| M2M_WIFI_UNDEF.

Inductive wifi_event : Type :=
| M2M_WIFI_RESP_CON_STATE_CHANGED (u8CurrState : m2m_conn_state)
| M2M_WIFI_REQ_DHCP_CONF (a b c d : Z)
| M2M_WIFI_OTHER.

Definition wifi_cb (e : wifi_event) (w : world) : world :=
  match e with
  | M2M_WIFI_RESP_CON_STATE_CHANGED M2M_WIFI_CONNECTED =>
      emit WifiRequestDhcp (printf MsgWifiConnected w)
  | M2M_WIFI_RESP_CON_STATE_CHANGED M2M_WIFI_DISCONNECTED =>
      let w1 := clear_state WIFI_CONNECTED (printf MsgWifiDisconnected w) in
      let w2 := if is_state_set DOWNLOADING w1
                then clear_state DOWNLOADING w1 else w1 in
      let w3 := if is_state_set GET_REQUESTED w2
                then clear_state GET_REQUESTED w2 else w2 in
      emit WifiConnect w3
  | M2M_WIFI_RESP_CON_STATE_CHANGED M2M_WIFI_UNDEF => w
  | M2M_WIFI_REQ_DHCP_CONF a b c d =>
      start_download (add_state WIFI_CONNECTED (printf (MsgIpAddress a b c d) w))
  | M2M_WIFI_OTHER => w
  end.

(** Everything the two polling calls of the main loop can deliver. *)
Inductive event : Type :=
| Http (e : http_client_event)
| Wifi (e : wifi_event).

Definition dispatch (e : event) (w : world) : world :=
  match e with
  | Http e => http_client_callback e w
  | Wifi e => wifi_cb e w
  end.

Definition dispatch_all (es : list event) (w : world) : world :=
  fold_left (fun w e => dispatch e w) es w.

(** ** Countdown timers *)

(** Modelled from the spec: the declaration of [Timer] is in an absent
    header; its one field [end_time] is an absolute deadline on the
    millisecond clock, held here in 32 bits like [milliSeconds]. *)
Record Timer : Type := { end_time : Z }.

Definition SysTick_Handler (w : world) : world :=
  World (down_state w) (http_file_size w) (received_file_size w)
        (u32 (milliSeconds w + 1)) (trace w).

Definition TimerIsExpired (t : Timer) (w : world) : bool :=
  to_long (end_time t - milliSeconds w) <? 0.

Definition TimerCountdownMS (timeout : Z) (w : world) : Timer :=
  {| end_time := u32 (milliSeconds w + timeout) |}.

Definition TimerCountdown (timeout : Z) (w : world) : Timer :=
  {| end_time := u32 (milliSeconds w + u32 (timeout * 1000)) |}.

Definition TimerLeftMS (t : Timer) (w : world) : Z :=
  let left := to_long (end_time t - milliSeconds w) in
  if left <? 0 then 0 else left.

Definition TimerInit : Timer := {| end_time := 0 |}.

(** ** The main loop *)

(** The variables of the loop: the globals and the two timers local to
    [main]. *)
Record main_state : Type := {
  globals : world;
  timer : Timer;
  oneSecondTimer : Timer
}.

(** [main] up to the loop, every initialisation succeeding. *)
Definition main_init : main_state :=
  let w := emit WifiConnect
             (printf MsgConnecting
                (printf MsgNeedsInternet
                   (printf MsgHeader (init_state boot)))) in
  {| globals := emit (TimerArm OneSecondTimer 1)
                  (emit (TimerArm WatchdogTimer 40) w);
     timer := TimerCountdown 40 w;
     oneSecondTimer := TimerCountdown 1 w |}.

(** [if (TimerIsExpired(&oneSecondTimer)) { ... }] *)
Definition one_second_block (m : main_state) : main_state :=
  if TimerIsExpired (oneSecondTimer m) (globals m) then
    let w1 := emit LedToggle (globals m) in
    let t1 := TimerCountdown 1 w1 in
    let w2 := emit (TimerArm OneSecondTimer 1) w1 in
    {| globals := printf (MsgTimeLeft (TimerLeftMS (timer m) w2 / 1000)) w2;
       timer := timer m;
       oneSecondTimer := t1 |}
  else m.

(** [if (TimerIsExpired(&timer)) { ... }] *)
Definition watchdog_block (m : main_state) : main_state :=
  if TimerIsExpired (timer m) (globals m) then
    let t1 := TimerCountdown 60 (globals m) in
    let w1 := printf MsgTimerExpired
                (emit (TimerArm WatchdogTimer 60) (globals m)) in
    let w2 :=
      if is_state_set COMPLETED w1 || is_state_set CANCELED w1 then
        start_download (add_state WIFI_CONNECTED (set_down_state NOT_READY w1))
      else w1 in
    {| globals := w2; timer := t1; oneSecondTimer := oneSecondTimer m |}
  else m.

(** One iteration of [while (true)]: [es] are the events that
    [m2m_wifi_handle_events] and [sw_timer_task] deliver in it. *)
Definition loop_iteration (es : list event) (m : main_state) : main_state :=
  let m1 := {| globals := dispatch_all es (globals m);
               timer := timer m;
               oneSecondTimer := oneSecondTimer m |} in
  watchdog_block (one_second_block m1).

End Downloader.

(** * Vocabulary of the statements *)

(** Two masks are independent when neither is empty and they share no bit. *)
Definition independent (m m' : Z) : Prop :=
  m <> 0 /\ m' <> 0 /\ Z.land m m' = 0 /\ Z.land m' m = 0.

(** A predicate on actions that ignores console lines. *)
Definition silent (p : action -> bool) : Prop := forall m, p (Printf m) = false.

Section Vocabulary.

Context {H : MainH}.

(** The guard of [start_download]. *)
Definition may_request (w : world) : bool :=
  is_state_set WIFI_CONNECTED w
  && negb (is_state_set GET_REQUESTED w)
  && negb (is_state_set DOWNLOADING w).

(** A run of HTTP-client events, oldest first. *)
Definition http_run (es : list http_client_event) (w : world) : world :=
  fold_left (fun w e => http_client_callback e w) es w.

(** A packet that the progress reporter counts: non-null and not empty. *)
Definition counted (data : option (list Z)) (length : Z) : bool :=
  match data with
  | Some _ => 1 <=? length
  | None => false
  end.

(** The received length once a counted packet of [length] bytes has been
    accumulated in state [w]: counting restarts from zero when [DOWNLOADING]
    is not set yet. *)
Definition accumulated (length : Z) (w : world) : Z :=
  u32 ((if is_state_set DOWNLOADING w then received_file_size w else 0)
       + length).

(** The three ways an HTTP-client event completes the download: the inline
    body of a 200 response, the final-chunk signal, and a counted chunk that
    brings the received length up to the expected length. *)
Definition completes (e : http_client_event) (w : world) : bool :=
  match e with
  | HTTP_CLIENT_CALLBACK_RECV_RESPONSE response_code content_length _ =>
      (response_code =? 200) && (content_length <=? MAIN_BUFFER_MAX_SIZE)
  | HTTP_CLIENT_CALLBACK_RECV_CHUNKED_DATA data length is_complete =>
      negb (is_complete =? 0)
      || (counted data length
          && (http_file_size w <=? accumulated length w))
  | _ => false
  end.

(** The received length has reached the expected length only if the
    download is marked complete. *)
Definition completion_recorded (w : world) : Prop :=
  http_file_size w <= received_file_size w ->
  is_state_set COMPLETED w = true.

(** A terminal flag is set. *)
Definition terminal (w : world) : bool :=
  is_state_set COMPLETED w || is_state_set CANCELED w.

(** The events whose handler calls [start_download], with the guard that is
    left to decide once the handler has cleared what it clears. *)
Definition retriggers (e : event) (w : world) : bool :=
  match e with
  | Http (HTTP_CLIENT_CALLBACK_DISCONNECTED reason) =>
      (reason =? - EAGAIN) && is_state_set WIFI_CONNECTED w
  | Wifi (M2M_WIFI_REQ_DHCP_CONF _ _ _ _) =>
      negb (is_state_set GET_REQUESTED w) && negb (is_state_set DOWNLOADING w)
  | _ => false
  end.

(** The HTTP-client events whose handler closes the transport. *)
Definition closes_transport (e : http_client_event) : bool :=
  match e with
  | HTTP_CLIENT_CALLBACK_RECV_RESPONSE response_code content_length _ =>
      (response_code =? 200) && (content_length <=? MAIN_BUFFER_MAX_SIZE)
  | HTTP_CLIENT_CALLBACK_RECV_CHUNKED_DATA _ _ is_complete =>
      negb (is_complete =? 0)
  | _ => false
  end.

(** The HTTP-client events that cancel the attempt. *)
Definition cancels (e : http_client_event) : bool :=
  match e with
  | HTTP_CLIENT_CALLBACK_RECV_RESPONSE response_code _ _ =>
      negb (response_code =? 200)
  | _ => false
  end.

(** The events whose handler calls [start_download] at all. *)
Definition calls_start_download (e : event) : bool :=
  match e with
  | Http (HTTP_CLIENT_CALLBACK_DISCONNECTED reason) => reason =? - EAGAIN
  | Wifi (M2M_WIFI_REQ_DHCP_CONF _ _ _ _) => true
  | _ => false
  end.

(** The bytes an event adds to the received length. *)
Definition fed (e : event) : Z :=
  match e with
  | Http (HTTP_CLIENT_CALLBACK_RECV_RESPONSE response_code content_length content) =>
      if (response_code =? 200) && (content_length <=? MAIN_BUFFER_MAX_SIZE)
         && counted content content_length
      then content_length else 0
  | Http (HTTP_CLIENT_CALLBACK_RECV_CHUNKED_DATA data length _) =>
      if counted data length then length else 0
  | _ => 0
  end.

(** The events at which counting restarts from zero: a 200 response, and a
    counted chunk that finds [DOWNLOADING] unset. *)
Definition restarts (e : event) (w : world) : bool :=
  match e with
  | Http (HTTP_CLIENT_CALLBACK_RECV_RESPONSE response_code _ _) =>
      response_code =? 200
  | Http (HTTP_CLIENT_CALLBACK_RECV_CHUNKED_DATA data length _) =>
      counted data length && negb (is_state_set DOWNLOADING w)
  | _ => false
  end.

(** An attempt is in flight: the request was acknowledged or data arrived. *)
Definition in_flight (w : world) : bool :=
  is_state_set GET_REQUESTED w || is_state_set DOWNLOADING w.

(** The events whose handler drops the attempt in flight: the retry-eligible
    disconnect and the loss of the link. *)
Definition drops_attempt (e : event) : bool :=
  match e with
  | Http (HTTP_CLIENT_CALLBACK_DISCONNECTED reason) => reason =? - EAGAIN
  | Wifi (M2M_WIFI_RESP_CON_STATE_CHANGED M2M_WIFI_DISCONNECTED) => true
  | _ => false
  end.

(** Chunks that carry data and no final-chunk signal, given by their bytes
    and announced lengths. *)
Definition plain_chunks (ps : list (list Z * Z)) : list http_client_event :=
  map (fun p => HTTP_CLIENT_CALLBACK_RECV_CHUNKED_DATA (Some (fst p)) (snd p) 0)
      ps.

(** The sum of the announced lengths. *)
Definition total_length (ps : list (list Z * Z)) : Z :=
  fold_right (fun p n => snd p + n) 0 ps.

(** [k] interrupts of the system tick. *)
Definition ticks (k : nat) (w : world) : world :=
  Nat.iter k SysTick_Handler w.

(** What the main loop does while no event arrives, in any interleaving: the
    tick interrupt advances the clock under it, and the two timer blocks
    run. *)
Inductive idle_step : main_state -> main_state -> Prop :=
| idle_tick (m : main_state) :
    idle_step m {| globals := SysTick_Handler (globals m);
                   timer := timer m;
                   oneSecondTimer := oneSecondTimer m |}
| idle_one_second (m : main_state) : idle_step m (one_second_block m)
| idle_watchdog (m : main_state) : idle_step m (watchdog_block m).

Inductive idle_run : main_state -> main_state -> Prop :=
| idle_stop (m : main_state) : idle_run m m
| idle_next (m m1 m2 : main_state) :
    idle_step m m1 -> idle_run m1 m2 -> idle_run m m2.

End Vocabulary.

(** * Properties *)

(** ** Bit masks *)

Lemma land_disjoint_bits (a b : Z) :
  Z.land a b = 0 -> forall n, Z.testbit a n && Z.testbit b n = false.
Proof.
  intros E n. rewrite <- Z.land_spec, E. apply Z.bits_0.
Qed.

Lemma land_lor_same (s m : Z) : Z.land (Z.lor s m) m = m.
Proof.
  apply Z.bits_inj'. intros n _.
  rewrite Z.land_spec, Z.lor_spec.
  destruct (Z.testbit s n), (Z.testbit m n); reflexivity.
Qed.

Lemma land_lor_other (s m m' : Z) :
  Z.land m m' = 0 -> Z.land (Z.lor s m) m' = Z.land s m'.
Proof.
  intros E. apply Z.bits_inj'. intros n _.
  pose proof (land_disjoint_bits _ _ E n) as D.
  rewrite !Z.land_spec, Z.lor_spec.
  destruct (Z.testbit s n), (Z.testbit m n), (Z.testbit m' n);
    simpl in *; congruence.
Qed.

Lemma land_lnot_same (s m : Z) : Z.land (Z.land s (Z.lnot m)) m = 0.
Proof.
  apply Z.bits_inj'. intros n Hn.
  rewrite !Z.land_spec, Z.lnot_spec, Z.bits_0 by assumption.
  destruct (Z.testbit s n), (Z.testbit m n); reflexivity.
Qed.

Lemma land_lnot_other (s m m' : Z) :
  Z.land m m' = 0 -> Z.land (Z.land s (Z.lnot m)) m' = Z.land s m'.
Proof.
  intros E. apply Z.bits_inj'. intros n Hn.
  pose proof (land_disjoint_bits _ _ E n) as D.
  rewrite !Z.land_spec, Z.lnot_spec by assumption.
  destruct (Z.testbit s n), (Z.testbit m n), (Z.testbit m' n);
    simpl in *; congruence.
Qed.

(** Clearing a flag that is not set leaves the mask as it is. *)
Lemma land_lnot_absent (s m : Z) :
  Z.land s m = 0 -> Z.land s (Z.lnot m) = s.
Proof.
  intros E. apply Z.bits_inj'. intros n Hn.
  pose proof (land_disjoint_bits _ _ E n) as D.
  rewrite Z.land_spec, Z.lnot_spec by assumption.
  destruct (Z.testbit s n), (Z.testbit m n); simpl in *; congruence.
Qed.

Lemma is_complete_dec (c : Z) : c = 0 \/ c <> 0.
Proof. lia. Qed.

Lemma count_app (p : action -> bool) (t u : list action) :
  count p (t ++ u) = (count p t + count p u)%nat.
Proof.
  unfold count. rewrite filter_app. apply length_app.
Qed.

Create HintDb flags.

Section Flags.

Context {H : MainH}.

Lemma flags_independent :
  independent WIFI_CONNECTED GET_REQUESTED /\
  independent WIFI_CONNECTED DOWNLOADING /\
  independent WIFI_CONNECTED COMPLETED /\
  independent WIFI_CONNECTED CANCELED /\
  independent GET_REQUESTED DOWNLOADING /\
  independent GET_REQUESTED COMPLETED /\
  independent GET_REQUESTED CANCELED /\
  independent DOWNLOADING COMPLETED /\
  independent DOWNLOADING CANCELED /\
  independent COMPLETED CANCELED.
Proof.
  pose proof flags_nonempty as N. pose proof flags_disjoint as D.
  repeat match goal with
         | F : Forall _ (_ :: _) |- _ => inversion F; subst; clear F
         | F : ForallOrdPairs _ (_ :: _) |- _ => inversion F; subst; clear F
         end.
  unfold independent.
  repeat match goal with
         | |- _ /\ _ => split
         | |- Z.land ?a ?b = 0 =>
             first [assumption | rewrite Z.land_comm; assumption]
         | |- _ <> _ => assumption
         end.
Qed.

Lemma is_state_set_add_same (m : Z) (w : world) :
  m <> 0 -> is_state_set m (add_state m w) = true.
Proof.
  intros N. unfold is_state_set, add_state. simpl.
  rewrite land_lor_same. apply negb_true_iff, Z.eqb_neq, N.
Qed.

Lemma is_state_set_add_other (m m' : Z) (w : world) :
  Z.land m m' = 0 -> is_state_set m' (add_state m w) = is_state_set m' w.
Proof.
  intros E. unfold is_state_set, add_state. simpl.
  now rewrite land_lor_other.
Qed.

Lemma is_state_set_clear_same (m : Z) (w : world) :
  is_state_set m (clear_state m w) = false.
Proof.
  unfold is_state_set, clear_state. simpl.
  now rewrite land_lnot_same.
Qed.

Lemma is_state_set_clear_other (m m' : Z) (w : world) :
  Z.land m m' = 0 -> is_state_set m' (clear_state m w) = is_state_set m' w.
Proof.
  intros E. unfold is_state_set, clear_state. simpl.
  now rewrite land_lnot_other.
Qed.

Lemma clear_state_absent (m : Z) (w : world) :
  is_state_set m w = false -> down_state (clear_state m w) = down_state w.
Proof.
  unfold is_state_set, clear_state. simpl. intros E.
  apply negb_false_iff, Z.eqb_eq in E. now apply land_lnot_absent.
Qed.

(** [is_state_set] reads [down_state] only. *)
Lemma is_state_set_ext (m : Z) (w w' : world) :
  down_state w = down_state w' -> is_state_set m w = is_state_set m w'.
Proof.
  unfold is_state_set. now intros ->.
Qed.

Lemma is_state_set_NOT_READY (m : Z) (w : world) :
  is_state_set m (set_down_state NOT_READY w) = false.
Proof.
  unfold is_state_set. simpl. now rewrite NOT_READY_empty.
Qed.

End Flags.

(** ** The orchestrator's guard *)

Section Orchestrator.

Context {H : MainH}.

Lemma start_download_down_state (w : world) :
  down_state (start_download w) = down_state w.
Proof.
  unfold start_download.
  destruct (is_state_set WIFI_CONNECTED w), (is_state_set GET_REQUESTED w),
    (is_state_set DOWNLOADING w); reflexivity.
Qed.

Lemma start_download_sizes (w : world) :
  http_file_size (start_download w) = http_file_size w /\
  received_file_size (start_download w) = received_file_size w /\
  milliSeconds (start_download w) = milliSeconds w.
Proof.
  unfold start_download.
  destruct (is_state_set WIFI_CONNECTED w), (is_state_set GET_REQUESTED w),
    (is_state_set DOWNLOADING w); auto.
Qed.

Lemma is_state_set_start_download (m : Z) (w : world) :
  is_state_set m (start_download w) = is_state_set m w.
Proof.
  apply is_state_set_ext, start_download_down_state.
Qed.

Lemma start_download_trace (w : world) :
  trace (start_download w) =
  trace w ++
    (if may_request w then [Printf MsgSendingRequest; HttpSendRequest]
     else if negb (is_state_set WIFI_CONNECTED w) then [Printf MsgWifiNotConnected]
     else if is_state_set GET_REQUESTED w then [Printf MsgRequestSentAlready]
     else [Printf MsgRunningAlready]).
Proof.
  unfold start_download, may_request.
  destruct (is_state_set WIFI_CONNECTED w), (is_state_set GET_REQUESTED w),
    (is_state_set DOWNLOADING w); simpl; try reflexivity.
  now rewrite <- app_assoc.
Qed.

Lemma start_download_requests (w : world) :
  requests (start_download w) =
  (requests w + if may_request w then 1 else 0)%nat.
Proof.
  unfold requests. rewrite start_download_trace, count_app. f_equal.
  destruct (may_request w); [reflexivity |].
  destruct (is_state_set WIFI_CONNECTED w), (is_state_set GET_REQUESTED w);
    reflexivity.
Qed.

Lemma start_download_iter_offline (n : nat) (w : world) :
  is_state_set WIFI_CONNECTED w = false ->
  down_state (Nat.iter n start_download w) = down_state w /\
  requests (Nat.iter n start_download w) = requests w.
Proof.
  intros Off. induction n as [| n [IHs IHr]]; simpl; [auto |].
  split.
  - now rewrite start_download_down_state.
  - rewrite start_download_requests. unfold may_request.
    rewrite (is_state_set_ext _ _ w IHs), Off. simpl. lia.
Qed.

(** C1.  [start_download] issues the HTTP GET exactly when [WIFI_CONNECTED]
    is set and neither [GET_REQUESTED] nor [DOWNLOADING] is: the number of
    requests grows by one in that case and by none otherwise.  The call never
    touches the state flags, the expected length or the received length, and
    when the guard fails its only effect is one console line.  Any number of
    calls made while [WIFI_CONNECTED] is unset issues no request. *)
Theorem start_download_guarded (w : world) :
  let go := is_state_set WIFI_CONNECTED w
            && negb (is_state_set GET_REQUESTED w)
            && negb (is_state_set DOWNLOADING w) in
  requests (start_download w) = (requests w + if go then 1 else 0)%nat /\
  down_state (start_download w) = down_state w /\
  http_file_size (start_download w) = http_file_size w /\
  received_file_size (start_download w) = received_file_size w /\
  (if go
   then trace (start_download w) =
        trace w ++ [Printf MsgSendingRequest; HttpSendRequest]
   else exists m, trace (start_download w) = trace w ++ [Printf m]) /\
  (forall n : nat,
      is_state_set WIFI_CONNECTED w = false ->
      requests (Nat.iter n start_download w) = requests w).
Proof.
  intros go.
  pose proof (start_download_sizes w) as (Hs & Hr & _).
  repeat split; auto using start_download_down_state.
  - apply start_download_requests.
  - pose proof (start_download_trace w) as T.
    fold (may_request w) in go. subst go.
    destruct (may_request w); [exact T |].
    destruct (negb (is_state_set WIFI_CONNECTED w)); [eauto |].
    destruct (is_state_set GET_REQUESTED w); eauto.
  - intros n Off. now apply start_download_iter_offline.
Qed.

End Orchestrator.

(** ** The progress reporter *)

Section Reporter.

Context {H : MainH}.

(** What a counted packet does, in one equation. *)
Lemma store_file_packet_counted (data : option (list Z)) (length : Z) (w : world) :
  counted data length = true ->
  let r := accumulated length w in
  let s := Z.lor (down_state w)
                 (if is_state_set DOWNLOADING w then 0 else DOWNLOADING) in
  store_file_packet data length w =
  if http_file_size w <=? r
  then World (Z.lor s COMPLETED) (http_file_size w) r (milliSeconds w)
             (trace w ++ [Printf (MsgPacket length r (http_file_size w));
                          Printf MsgDownloaded])
  else World s (http_file_size w) r (milliSeconds w)
             (trace w ++ [Printf (MsgPacket length r (http_file_size w))]).
Proof.
  unfold counted, store_file_packet, accumulated.
  destruct data as [bytes |]; [| discriminate].
  intros C. apply Z.leb_le in C.
  destruct (Z.ltb_spec length 1) as [|_]; [lia |].
  destruct w as [s hs rs ms t]; unfold is_state_set; simpl.
  destruct (Z.land s DOWNLOADING =? 0); simpl.
  - destruct (hs <=? u32 (0 + length)); simpl;
      unfold add_state, printf, emit, set_down_state; simpl;
      rewrite <- ?app_assoc; reflexivity.
  - rewrite Z.lor_0_r.
    destruct (hs <=? u32 (rs + length)); simpl;
      unfold add_state, printf, emit, set_down_state; simpl;
      rewrite <- ?app_assoc; reflexivity.
Qed.

Lemma store_file_packet_ignored (data : option (list Z)) (length : Z) (w : world) :
  counted data length = false ->
  store_file_packet data length w = printf MsgEmptyData w.
Proof.
  unfold counted, store_file_packet.
  destruct data as [bytes |]; [| reflexivity].
  intros C. apply Z.leb_gt in C.
  destruct (Z.ltb_spec length 1); [reflexivity | lia].
Qed.

(** C8.  A packet with a null pointer or a zero length is dropped: the call
    prints one line and leaves the state flags, the received length and the
    expected length as they were. *)
Theorem store_file_packet_empty (data : option (list Z)) (length : Z) (w : world) :
  data = None \/ length = 0 ->
  down_state (store_file_packet data length w) = down_state w /\
  received_file_size (store_file_packet data length w) = received_file_size w /\
  http_file_size (store_file_packet data length w) = http_file_size w /\
  trace (store_file_packet data length w) = trace w ++ [Printf MsgEmptyData].
Proof.
  intros E. rewrite store_file_packet_ignored.
  - repeat split.
  - destruct E as [-> | ->]; [reflexivity |].
    destruct data; reflexivity.
Qed.

(** C10.  While the expected length is still zero, the first non-empty packet
    already satisfies the completion test.  The packet is counted like any
    other: [DOWNLOADING] is set, the received length becomes the accumulated
    length (the packet's own length when [DOWNLOADING] was unset) and the
    progress line is printed; that received length is at least the expected
    length, which is still zero, so the call reports success and sets
    [COMPLETED] at once, whatever the packet's length.  The same holds of the
    chunk event that delivers the packet. *)
Theorem first_packet_completes_unknown_size
    (bytes : list Z) (length is_complete : Z) (w : world) :
  1 <= length ->
  http_file_size w = 0 ->
  let w' := store_file_packet (Some bytes) length w in
  let w'' := http_client_callback
               (HTTP_CLIENT_CALLBACK_RECV_CHUNKED_DATA
                  (Some bytes) length is_complete) w in
  received_file_size w' = accumulated length w /\
  (is_state_set DOWNLOADING w = false -> received_file_size w' = u32 length) /\
  http_file_size w' = 0 /\
  http_file_size w' <= received_file_size w' /\
  is_state_set DOWNLOADING w' = true /\
  is_state_set COMPLETED w' = true /\
  trace w' =
    trace w ++ [Printf (MsgPacket length (accumulated length w) 0);
                Printf MsgDownloaded] /\
  received_file_size w'' = accumulated length w /\
  http_file_size w'' <= received_file_size w'' /\
  is_state_set DOWNLOADING w'' = true /\
  is_state_set COMPLETED w'' = true.
Proof.
  intros L Z0 w' w''.
  destruct flags_independent
    as (_ & _ & _ & _ & _ & _ & _ & (Nd & Nc & _ & Dcd) & _).
  assert (P : 0 <= accumulated length w)
    by (unfold accumulated, u32; apply Z.mod_pos_bound; reflexivity).
  assert (E : w' =
              World (Z.lor (Z.lor (down_state w)
                              (if is_state_set DOWNLOADING w
                               then 0 else DOWNLOADING))
                           COMPLETED)
                    0 (accumulated length w) (milliSeconds w)
                    (trace w ++ [Printf (MsgPacket length
                                           (accumulated length w) 0);
                                 Printf MsgDownloaded])).
  { subst w'. rewrite store_file_packet_counted by (now apply Z.leb_le).
    cbv zeta. rewrite Z0. apply Z.leb_le in P. now rewrite P. }
  assert (R : received_file_size w' = accumulated length w) by now rewrite E.
  assert (S : http_file_size w' = 0) by now rewrite E.
  assert (D : is_state_set DOWNLOADING w' = true).
  { rewrite E. unfold is_state_set. cbn [down_state].
    rewrite land_lor_other by assumption.
    destruct (negb (Z.land (down_state w) DOWNLOADING =? 0)) eqn:B.
    - now rewrite Z.lor_0_r.
    - rewrite land_lor_same. now apply negb_true_iff, Z.eqb_neq. }
  assert (C : is_state_set COMPLETED w' = true).
  { rewrite E. unfold is_state_set. cbn [down_state].
    rewrite land_lor_same. now apply negb_true_iff, Z.eqb_neq. }
  assert (F : received_file_size w'' = received_file_size w' /\
              http_file_size w'' = http_file_size w' /\
              is_state_set DOWNLOADING w'' = is_state_set DOWNLOADING w' /\
              is_state_set COMPLETED w'' = true).
  { subst w''. cbn [http_client_callback]. cbv zeta. fold w'.
    destruct (negb (is_complete =? 0)); [| now rewrite C].
    repeat split.
    - change (is_state_set DOWNLOADING
                (add_state COMPLETED
                   (emit HttpClose (printf MsgCompletedChunked w'))))
        with (is_state_set DOWNLOADING (add_state COMPLETED w')).
      now apply is_state_set_add_other.
    - now apply is_state_set_add_same. }
  destruct F as (R2 & S2 & D2 & C2).
  split; [exact R |]. split.
  { intros U. rewrite R. unfold accumulated. now rewrite U. }
  split; [exact S |]. split; [rewrite R, S; exact P |].
  split; [exact D |]. split; [exact C |]. split; [now rewrite E |].
  split; [now rewrite R2 |]. split; [rewrite R2, S2, R, S; exact P |].
  split; [now rewrite D2 | exact C2].
Qed.

End Reporter.

Lemma store_file_packet_empty_witness :
  down_state (store_file_packet (Some [104; 105]) 0 boot) = 0 /\
  received_file_size (store_file_packet None 7 boot) = 0.
Proof.
  split.
  - apply (store_file_packet_empty (Some [104; 105]) 0 boot). right. reflexivity.
  - apply (store_file_packet_empty None 7 boot). left. reflexivity.
Defined.

Lemma first_packet_completes_unknown_size_witness :
  received_file_size (store_file_packet (Some [1; 2; 3]) 3 boot) = 3 /\
  is_state_set DOWNLOADING (store_file_packet (Some [1; 2; 3]) 3 boot) = true /\
  is_state_set COMPLETED (store_file_packet (Some [1; 2; 3]) 3 boot) = true.
Proof.
  pose proof (@first_packet_completes_unknown_size asf_main_h
                [1; 2; 3] 3 0 (@boot asf_main_h)) as F.
  cbv zeta in F.
  destruct F as (R & _ & _ & _ & D & C & _); [lia | reflexivity |].
  split; [exact R |]. split; [exact D | exact C].
Defined.

(** ** Reading the flags through the state updates *)

Section FlagReads.

Context {H : MainH}.

Lemma is_state_set_emit (m : Z) (a : action) (w : world) :
  is_state_set m (emit a w) = is_state_set m w.
Proof. reflexivity. Qed.

Lemma is_state_set_printf (m : Z) (msg : message) (w : world) :
  is_state_set m (printf msg w) = is_state_set m w.
Proof. reflexivity. Qed.

Lemma is_state_set_set_received (m n : Z) (w : world) :
  is_state_set m (set_received_file_size n w) = is_state_set m w.
Proof. reflexivity. Qed.

Lemma is_state_set_set_size (m n : Z) (w : world) :
  is_state_set m (set_http_file_size n w) = is_state_set m w.
Proof. reflexivity. Qed.

(** The source clears [DOWNLOADING] and [GET_REQUESTED] under a test that
    they are set; the test changes nothing. *)
Lemma conditional_clear (m : Z) (w : world) :
  (if is_state_set m w then clear_state m w else w) = clear_state m w.
Proof.
  destruct (is_state_set m w) eqn:E; [reflexivity |].
  pose proof (clear_state_absent m w E) as D.
  destruct w as [s hs rs ms t]. unfold clear_state, set_down_state in *.
  simpl in *. now rewrite D.
Qed.

End FlagReads.

(** [flag_facts] brings the independence of the five flags into the context;
    [flag_reads] then pushes every [is_state_set] through the updates. *)
Ltac flag_facts :=
  let F := fresh "F" in
  pose proof flags_independent as F; unfold independent in F;
  decompose [and] F; clear F.

Lemma emit_fields (a : action) (w : world) :
  down_state (emit a w) = down_state w /\
  http_file_size (emit a w) = http_file_size w /\
  received_file_size (emit a w) = received_file_size w /\
  milliSeconds (emit a w) = milliSeconds w.
Proof. repeat split. Qed.

Lemma printf_fields (m : message) (w : world) :
  down_state (printf m w) = down_state w /\
  http_file_size (printf m w) = http_file_size w /\
  received_file_size (printf m w) = received_file_size w /\
  milliSeconds (printf m w) = milliSeconds w.
Proof. repeat split. Qed.

(** [through_setters] reads a field of the state through the assignments and
    calls that do not write it, leaving the console and call records
    folded. *)
Ltac through_setters :=
  repeat progress
    (cbn [trace down_state http_file_size received_file_size milliSeconds
          set_received_file_size set_http_file_size set_down_state
          add_state clear_state];
     rewrite ?(fun a w => proj1 (emit_fields a w)),
             ?(fun a w => proj1 (proj2 (emit_fields a w))),
             ?(fun a w => proj1 (proj2 (proj2 (emit_fields a w)))),
             ?(fun a w => proj2 (proj2 (proj2 (emit_fields a w)))),
             ?(fun a w => proj1 (printf_fields a w)),
             ?(fun a w => proj1 (proj2 (printf_fields a w))),
             ?(fun a w => proj1 (proj2 (proj2 (printf_fields a w)))),
             ?(fun a w => proj2 (proj2 (proj2 (printf_fields a w)))));
  cbn [trace down_state http_file_size received_file_size milliSeconds
       set_received_file_size set_http_file_size set_down_state
       add_state clear_state].

Ltac flag_reads :=
  repeat first
    [ rewrite conditional_clear
    | rewrite is_state_set_emit
    | rewrite is_state_set_printf
    | rewrite is_state_set_set_received
    | rewrite is_state_set_set_size
    | rewrite is_state_set_start_download
    | rewrite is_state_set_NOT_READY
    | rewrite is_state_set_add_same by assumption
    | rewrite is_state_set_add_other by assumption
    | rewrite is_state_set_clear_same
    | rewrite is_state_set_clear_other by assumption ].

(** ** Completion *)

Section Completion.

Context {H : MainH}.

Lemma is_state_set_store_file_packet (m : Z) (data : option (list Z))
    (length : Z) (w : world) :
  Z.land DOWNLOADING m = 0 -> Z.land COMPLETED m = 0 ->
  is_state_set m (store_file_packet data length w) = is_state_set m w.
Proof.
  intros D C. destruct (counted data length) eqn:K.
  - rewrite store_file_packet_counted by assumption. cbv zeta.
    destruct (http_file_size w <=? accumulated length w);
      unfold is_state_set; simpl; rewrite ?land_lor_other by assumption;
      destruct (negb (Z.land (down_state w) DOWNLOADING =? 0));
      rewrite ?Z.lor_0_r, ?land_lor_other by assumption; reflexivity.
  - now rewrite store_file_packet_ignored.
Qed.

Lemma store_file_packet_completed (data : option (list Z)) (length : Z)
    (w : world) :
  is_state_set COMPLETED (store_file_packet data length w) =
  is_state_set COMPLETED w
  || (counted data length && (http_file_size w <=? accumulated length w)).
Proof.
  flag_facts. destruct (counted data length) eqn:K.
  - rewrite store_file_packet_counted by assumption. cbv zeta.
    destruct (http_file_size w <=? accumulated length w);
      unfold is_state_set; simpl.
    + rewrite land_lor_same, orb_true_r.
      now apply negb_true_iff, Z.eqb_neq.
    + rewrite orb_false_r.
      destruct (negb (Z.land (down_state w) DOWNLOADING =? 0));
        rewrite ?Z.lor_0_r, ?land_lor_other by assumption; reflexivity.
  - rewrite store_file_packet_ignored by assumption.
    now rewrite is_state_set_printf, orb_false_r.
Qed.

Lemma store_file_packet_counted_fields (data : option (list Z)) (length : Z)
    (w : world) :
  counted data length = true ->
  received_file_size (store_file_packet data length w) = accumulated length w /\
  http_file_size (store_file_packet data length w) = http_file_size w /\
  is_state_set DOWNLOADING (store_file_packet data length w) = true.
Proof.
  intros K. flag_facts.
  rewrite store_file_packet_counted by assumption. cbv zeta.
  assert (D : forall s, negb (Z.land
             (Z.lor s (if negb (Z.land s DOWNLOADING =? 0) then 0 else DOWNLOADING))
             DOWNLOADING =? 0) = true).
  { intros s. destruct (Z.land s DOWNLOADING =? 0) eqn:E; simpl.
    - rewrite land_lor_same. now apply negb_true_iff, Z.eqb_neq.
    - now rewrite Z.lor_0_r, E. }
  destruct (http_file_size w <=? accumulated length w);
    unfold is_state_set; simpl; repeat split;
    rewrite ?(land_lor_other _ COMPLETED DOWNLOADING) by assumption; apply D.
Qed.

(** One event: [COMPLETED] is set afterwards exactly when it was set before
    or the event completes the download. *)
Lemma http_client_callback_completed (e : http_client_event) (w : world) :
  is_state_set COMPLETED (http_client_callback e w) =
  is_state_set COMPLETED w || completes e w.
Proof.
  flag_facts.
  destruct e as [| | code cl content | data len ic | reason |];
    cbn [http_client_callback completes].
  - now rewrite is_state_set_printf, orb_false_r.
  - flag_reads. now rewrite orb_false_r.
  - destruct (code =? 200); simpl.
    + destruct (cl <=? MAIN_BUFFER_MAX_SIZE); flag_reads.
      * now rewrite orb_true_r.
      * now rewrite orb_false_r.
    + flag_reads. now rewrite orb_false_r.
  - destruct (is_complete_dec ic) as [-> | N].
    + simpl. apply store_file_packet_completed.
    + apply Z.eqb_neq in N. rewrite N. simpl. flag_reads.
      now rewrite orb_true_r.
  - cbv zeta. destruct (reason =? - EAGAIN); flag_reads;
      now rewrite orb_false_r.
  - now rewrite orb_false_r.
Qed.

End Completion.

Section CompletionRuns.

Context {H : MainH}.

Lemma http_run_completed (es : list http_client_event) (w : world) :
  is_state_set COMPLETED (http_run es w) = true <->
  is_state_set COMPLETED w = true \/
  exists before e after,
    es = before ++ e :: after /\ completes e (http_run before w) = true.
Proof.
  revert w. induction es as [| e es IH]; intros w.
  - simpl. split; [auto |].
    intros [C | (before & e & after & E & _)]; [exact C |].
    now destruct before.
  - change (http_run (e :: es) w) with (http_run es (http_client_callback e w)).
    rewrite IH, http_client_callback_completed, orb_true_iff.
    split.
    + intros [[C | C] | (before & e' & after & -> & C)].
      * now left.
      * right. now exists [], e, es.
      * right. now exists (e :: before), e', after.
    + intros [C | (before & e' & after & E & C)]; [auto |].
      destruct before as [| b before]; simpl in E; injection E as -> ->.
      * auto.
      * right. now exists before, e', after.
Qed.

(** A 200 response leaves the counters consistent with the flag. *)
Lemma response_200_records_completion (cl : Z) (content : option (list Z))
    (w : world) :
  completion_recorded
    (http_client_callback (HTTP_CLIENT_CALLBACK_RECV_RESPONSE 200 cl content) w).
Proof.
  unfold completion_recorded. intros L.
  rewrite http_client_callback_completed. apply orb_true_iff. right.
  cbn [completes]. simpl (200 =? 200). cbn [andb].
  apply Z.leb_le. destruct (Z.leb_spec cl MAIN_BUFFER_MAX_SIZE) as [| G]; [assumption |].
  revert L. cbn [http_client_callback]. simpl (200 =? 200). cbv iota zeta.
  apply Z.leb_gt in G. rewrite G. simpl.
  pose proof MAIN_BUFFER_MAX_SIZE_range. apply Z.leb_gt in G. lia.
Qed.

Lemma http_client_callback_records_completion (e : http_client_event)
    (w : world) :
  completion_recorded w -> completion_recorded (http_client_callback e w).
Proof.
  intros I.
  assert (Keep : http_file_size (http_client_callback e w) = http_file_size w ->
                 received_file_size (http_client_callback e w) = received_file_size w ->
                 completion_recorded (http_client_callback e w)).
  { intros Es Er L. rewrite Es, Er in L.
    rewrite http_client_callback_completed, (I L). reflexivity. }
  destruct e as [| | code cl content | data len ic | reason |].
  - now apply Keep.
  - now apply Keep.
  - destruct (Z.eq_dec code 200) as [-> | N].
    + apply response_200_records_completion.
    + apply Keep; cbn [http_client_callback]; apply Z.eqb_neq in N;
        now rewrite N.
  - destruct (counted data len) eqn:K.
    + intros L. rewrite http_client_callback_completed. cbn [completes].
      rewrite K. cbn [andb].
      destruct (ic =? 0) eqn:C; [| cbn [negb orb]; apply orb_true_r].
      cbn [negb orb].
      revert L. cbn [http_client_callback]. rewrite C. cbn [negb]. cbv zeta.
      destruct (store_file_packet_counted_fields data len w K) as (-> & -> & _).
      intros L. apply Z.leb_le in L. rewrite L. apply orb_true_r.
    + apply Keep; cbn [http_client_callback];
        rewrite store_file_packet_ignored by assumption;
        now destruct (negb (ic =? 0)).
  - apply Keep; cbn [http_client_callback]; cbv zeta;
      destruct (reason =? - EAGAIN); try reflexivity;
      rewrite !conditional_clear;
      match goal with
      | |- _ (start_download ?x) = _ =>
          destruct (start_download_sizes x) as (Es & Er & _);
          rewrite ?Es, ?Er
      end; reflexivity.
  - exact I.
Qed.

Lemma http_run_records_completion (es : list http_client_event) (w : world) :
  completion_recorded w -> completion_recorded (http_run es w).
Proof.
  revert w. induction es as [| e es IH]; intros w I; [exact I |].
  apply IH, http_client_callback_records_completion, I.
Qed.

(** A counted chunk without the final-chunk signal. *)
Lemma plain_chunk_fields (bytes : list Z) (length : Z) (w : world) :
  1 <= length ->
  let w' := http_client_callback
              (HTTP_CLIENT_CALLBACK_RECV_CHUNKED_DATA (Some bytes) length 0) w in
  received_file_size w' = accumulated length w /\
  http_file_size w' = http_file_size w /\
  is_state_set DOWNLOADING w' = true /\
  is_state_set COMPLETED w' =
    is_state_set COMPLETED w || (http_file_size w <=? accumulated length w).
Proof.
  intros L w'. subst w'.
  assert (K : counted (Some bytes) length = true) by now apply Z.leb_le.
  rewrite http_client_callback_completed.
  cbn [http_client_callback completes]. rewrite K.
  destruct (store_file_packet_counted_fields (Some bytes) length w K)
    as (R & S & D).
  repeat split; assumption.
Qed.

(** C2.  Over any run of HTTP-client events that starts with [COMPLETED]
    unset, [COMPLETED] is set at the end if and only if some event of the run
    completed the download: a counted chunk whose accumulation brought the
    received length up to the expected length, a chunk carrying the
    final-chunk signal, or a 200 response within the buffer capacity (the
    inline-body path).  The flag and the counters stay consistent along the
    run, and from the first 200 response on, a received length that has
    reached the expected length always shows as [COMPLETED].  With 1000
    bytes expected and none received, chunks of 400, 400 and 200 bytes
    without the final-chunk signal leave [COMPLETED] unset after the first
    and the second and set it after the third. *)
Theorem completed_iff_completing_event
    (es : list http_client_event) (w : world) :
  is_state_set COMPLETED w = false ->
  (is_state_set COMPLETED (http_run es w) = true <->
   exists before e after,
     es = before ++ e :: after /\ completes e (http_run before w) = true) /\
  (completion_recorded w -> completion_recorded (http_run es w)) /\
  (forall cl content,
      completion_recorded
        (http_run es
           (http_client_callback
              (HTTP_CLIENT_CALLBACK_RECV_RESPONSE 200 cl content) w))) /\
  (forall b1 b2 b3,
      let chunk b n := HTTP_CLIENT_CALLBACK_RECV_CHUNKED_DATA (Some b) n 0 in
      let w0 := set_received_file_size 0 (set_http_file_size 1000 w) in
      let w1 := http_client_callback (chunk b1 400) w0 in
      let w2 := http_client_callback (chunk b2 400) w1 in
      let w3 := http_client_callback (chunk b3 200) w2 in
      is_state_set COMPLETED w1 = false /\
      is_state_set COMPLETED w2 = false /\
      is_state_set COMPLETED w3 = true /\
      received_file_size w3 = 1000).
Proof.
  intros C. split; [| split; [| split]].
  - split.
    + intros D. apply http_run_completed in D.
      destruct D as [D | D]; [congruence | exact D].
    + intros D. apply http_run_completed. now right.
  - apply http_run_records_completion.
  - intros cl content.
    apply http_run_records_completion, response_200_records_completion.
  - intros b1 b2 b3 chunk w0 w1 w2 w3.
    destruct (plain_chunk_fields b1 400 w0) as (R1 & S1 & D1 & C1); [lia |].
    fold (chunk b1 400) in R1, S1, D1, C1. fold w1 in R1, S1, D1, C1.
    destruct (plain_chunk_fields b2 400 w1) as (R2 & S2 & D2 & C2); [lia |].
    fold (chunk b2 400) in R2, S2, D2, C2. fold w2 in R2, S2, D2, C2.
    destruct (plain_chunk_fields b3 200 w2) as (R3 & S3 & D3 & C3); [lia |].
    fold (chunk b3 200) in R3, S3, D3, C3. fold w3 in R3, S3, D3, C3.
    assert (A1 : accumulated 400 w0 = 400).
    { unfold accumulated, w0. flag_reads. simpl.
      now destruct (is_state_set DOWNLOADING w). }
    assert (A2 : accumulated 400 w1 = 800).
    { unfold accumulated. now rewrite D1, R1, A1. }
    assert (A3 : accumulated 200 w2 = 1000).
    { unfold accumulated. now rewrite D2, R2, A2. }
    assert (C0 : is_state_set COMPLETED w0 = false) by exact C.
    assert (S0 : http_file_size w0 = 1000) by reflexivity.
    rewrite C3, C2, C1, R3, S2, S1, S0, A1, A2, A3, C0.
    repeat split; reflexivity.
Qed.

End CompletionRuns.

Lemma completed_iff_completing_event_witness :
  is_state_set COMPLETED boot = false /\
  is_state_set COMPLETED
    (http_run [HTTP_CLIENT_CALLBACK_REQUESTED;
               HTTP_CLIENT_CALLBACK_RECV_RESPONSE 200 1000 None]
              boot) = true.
Proof.
  split; [reflexivity |].
  refine (proj2 (proj1 (@completed_iff_completing_event asf_main_h
                  [HTTP_CLIENT_CALLBACK_REQUESTED;
                   HTTP_CLIENT_CALLBACK_RECV_RESPONSE 200 1000 None]
                  (@boot asf_main_h) _)) _); [reflexivity |].
  exists [HTTP_CLIENT_CALLBACK_REQUESTED],
         (HTTP_CLIENT_CALLBACK_RECV_RESPONSE 200 1000 None), [].
  split; reflexivity.
Defined.

(** ** Counting external calls *)

Lemma silent_is_request : silent is_request.
Proof. intros m. reflexivity. Qed.

Lemma silent_is_close : silent is_close.
Proof. intros m. reflexivity. Qed.

Lemma silent_is_timer_access : silent is_timer_access.
Proof. intros m. reflexivity. Qed.

#[export] Hint Resolve silent_is_request silent_is_close silent_is_timer_access
  : flags.

Section Counting.

Context {H : MainH}.

Variable p : action -> bool.
Hypothesis p_silent : silent p.

Lemma count_emit (a : action) (w : world) :
  count p (trace (emit a w)) = (count p (trace w) + if p a then 1 else 0)%nat.
Proof.
  simpl. rewrite count_app. unfold count at 2. simpl. now destruct (p a).
Qed.

Lemma count_printf (m : message) (w : world) :
  count p (trace (printf m w)) = count p (trace w).
Proof.
  unfold printf. rewrite count_emit, p_silent. lia.
Qed.

Lemma count_start_download (w : world) :
  count p (trace (start_download w)) =
  (count p (trace w) + if may_request w && p HttpSendRequest then 1 else 0)%nat.
Proof.
  rewrite start_download_trace, count_app. f_equal.
  unfold count. destruct (may_request w); simpl.
  - rewrite p_silent. now destruct (p HttpSendRequest).
  - destruct (negb (is_state_set WIFI_CONNECTED w));
      [| destruct (is_state_set GET_REQUESTED w)];
      simpl; now rewrite p_silent.
Qed.

Lemma count_store_file_packet (data : option (list Z)) (length : Z) (w : world) :
  count p (trace (store_file_packet data length w)) = count p (trace w).
Proof.
  destruct (counted data length) eqn:K.
  - rewrite store_file_packet_counted by assumption. cbv zeta.
    destruct (http_file_size w <=? accumulated length w); simpl;
      rewrite count_app; unfold count at 2; simpl; rewrite !p_silent;
      simpl; lia.
  - rewrite store_file_packet_ignored by assumption. apply count_printf.
Qed.

End Counting.

(** ** What the handlers emit *)

Section HandlerCalls.

Context {H : MainH}.

Variable p : action -> bool.
Hypothesis p_silent : silent p.

Lemma count_http_client_callback (e : http_client_event) (w : world) :
  count p (trace (http_client_callback e w)) =
  (count p (trace w)
   + (if closes_transport e && p HttpClose then 1 else 0)
   + (if retriggers (Http e) w && p HttpSendRequest then 1 else 0))%nat.
Proof.
  flag_facts.
  destruct e as [| | code cl content | data len ic | reason |];
    cbn [http_client_callback closes_transport retriggers andb]; cbv zeta.
  - rewrite count_printf by assumption. cbn [andb]; lia.
  - through_setters. rewrite count_printf by assumption. cbn [andb]; lia.
  - destruct (code =? 200); cbn [andb].
    + destruct (cl <=? MAIN_BUFFER_MAX_SIZE); through_setters.
      * rewrite count_emit, count_store_file_packet, count_printf by assumption.
        through_setters. rewrite count_printf by assumption.
        destruct (p HttpClose); cbn [andb]; lia.
      * rewrite count_printf by assumption. cbn [andb]; lia.
    + through_setters. rewrite count_printf by assumption. cbn [andb]; lia.
  - destruct (negb (ic =? 0)); cbn [andb]; through_setters.
    + rewrite count_emit, count_printf, count_store_file_packet by assumption.
      destruct (p HttpClose); cbn [andb]; lia.
    + rewrite count_store_file_packet by assumption. cbn [andb]; lia.
  - destruct (reason =? - EAGAIN); cbn [andb].
    + rewrite !conditional_clear, count_start_download by assumption.
      unfold may_request. flag_reads. through_setters.
      rewrite count_printf by assumption.
      cbn [negb]. rewrite !andb_true_r. lia.
    + rewrite count_printf by assumption. cbn [andb]; lia.
  - cbn [andb]; lia.
Qed.

Hypothesis p_dhcp : p WifiRequestDhcp = false.
Hypothesis p_connect : p WifiConnect = false.

Lemma count_wifi_cb (e : wifi_event) (w : world) :
  count p (trace (wifi_cb e w)) =
  (count p (trace w)
   + (if retriggers (Wifi e) w && p HttpSendRequest then 1 else 0))%nat.
Proof.
  flag_facts.
  destruct e as [[| |] | a b c d |]; cbn [wifi_cb retriggers andb]; cbv zeta.
  - rewrite !conditional_clear, count_emit, p_connect by assumption.
    through_setters. rewrite count_printf by assumption. cbn [andb]; lia.
  - rewrite count_emit, p_dhcp, count_printf by assumption. cbn [andb]; lia.
  - cbn [andb]; lia.
  - rewrite count_start_download by assumption.
    unfold may_request. flag_reads. through_setters.
    now rewrite count_printf by assumption.
  - cbn [andb]; lia.
Qed.

Lemma count_dispatch (e : event) (w : world) :
  count p (trace (dispatch e w)) =
  (count p (trace w)
   + (match e with
      | Http e => if closes_transport e && p HttpClose then 1 else 0
      | Wifi _ => 0
      end)
   + (if retriggers e w && p HttpSendRequest then 1 else 0))%nat.
Proof.
  destruct e as [e | e]; cbn [dispatch].
  - apply count_http_client_callback.
  - rewrite count_wifi_cb. cbn [andb]; lia.
Qed.

End HandlerCalls.

(** ** Terminal flags *)

Section Terminal.

Context {H : MainH}.

Lemma http_client_callback_canceled (e : http_client_event) (w : world) :
  is_state_set CANCELED (http_client_callback e w) =
  is_state_set CANCELED w || cancels e.
Proof.
  flag_facts.
  destruct e as [| | code cl content | data len ic | reason |];
    cbn [http_client_callback cancels]; cbv zeta.
  - now rewrite is_state_set_printf, orb_false_r.
  - flag_reads. now rewrite orb_false_r.
  - destruct (code =? 200); cbn [negb].
    + destruct (cl <=? MAIN_BUFFER_MAX_SIZE); flag_reads;
        rewrite ?is_state_set_store_file_packet by assumption;
        flag_reads; now rewrite orb_false_r.
    + flag_reads. now rewrite orb_true_r.
  - destruct (negb (ic =? 0)); flag_reads;
      rewrite is_state_set_store_file_packet by assumption;
      now rewrite orb_false_r.
  - destruct (reason =? - EAGAIN); flag_reads; now rewrite orb_false_r.
  - now rewrite orb_false_r.
Qed.

(** The Wi-Fi handler writes [WIFI_CONNECTED], [DOWNLOADING] and
    [GET_REQUESTED] only. *)
Lemma is_state_set_wifi_cb (m : Z) (e : wifi_event) (w : world) :
  Z.land WIFI_CONNECTED m = 0 -> Z.land DOWNLOADING m = 0 ->
  Z.land GET_REQUESTED m = 0 ->
  is_state_set m (wifi_cb e w) = is_state_set m w.
Proof.
  intros W D G.
  destruct e as [[| |] | a b c d |]; cbn [wifi_cb]; cbv zeta;
    flag_reads; reflexivity.
Qed.

Lemma dispatch_keeps_completed (e : event) (w : world) :
  is_state_set COMPLETED w = true ->
  is_state_set COMPLETED (dispatch e w) = true.
Proof.
  intros C. flag_facts. destruct e as [e | e]; cbn [dispatch].
  - now rewrite http_client_callback_completed, C.
  - now rewrite is_state_set_wifi_cb.
Qed.

Lemma dispatch_keeps_canceled (e : event) (w : world) :
  is_state_set CANCELED w = true ->
  is_state_set CANCELED (dispatch e w) = true.
Proof.
  intros C. flag_facts. destruct e as [e | e]; cbn [dispatch].
  - now rewrite http_client_callback_canceled, C.
  - now rewrite is_state_set_wifi_cb.
Qed.

Lemma dispatch_all_keeps (m : Z) (es : list event) (w : world) :
  (forall e w, is_state_set m w = true -> is_state_set m (dispatch e w) = true) ->
  is_state_set m w = true ->
  is_state_set m (dispatch_all es w) = true.
Proof.
  intros Step. revert w. induction es as [| e es IH]; intros w S; [exact S |].
  apply IH, Step, S.
Qed.

Lemma requests_dispatch (e : event) (w : world) :
  requests (dispatch e w) =
  (requests w + if retriggers e w then 1 else 0)%nat.
Proof.
  unfold requests. rewrite count_dispatch by auto with flags.
  cbn [is_request]. rewrite andb_true_r.
  destruct e as [e | e]; rewrite ?andb_false_r; lia.
Qed.

Lemma retriggers_calls (e : event) (w : world) :
  calls_start_download e = false -> retriggers e w = false.
Proof.
  destruct e as [[| | | | reason |] | [| |]]; try reflexivity; cbn.
  - now intros ->.
  - discriminate.
Qed.

Lemma requests_dispatch_all_quiet (es : list event) (w : world) :
  forallb (fun e => negb (calls_start_download e)) es = true ->
  requests (dispatch_all es w) = requests w.
Proof.
  revert w. induction es as [| e es IH]; intros w Q; [reflexivity |].
  cbn [forallb] in Q. apply andb_true_iff in Q as [Qe Qs].
  apply negb_true_iff in Qe.
  change (dispatch_all (e :: es) w) with (dispatch_all es (dispatch e w)).
  rewrite IH, requests_dispatch, retriggers_calls by assumption. lia.
Qed.

(** The watchdog block with the timer expired and a terminal flag set. *)
Lemma watchdog_block_reset (m : main_state) :
  TimerIsExpired (timer m) (globals m) = true ->
  terminal (globals m) = true ->
  globals (watchdog_block m) =
  emit HttpSendRequest
    (printf MsgSendingRequest
       (add_state WIFI_CONNECTED
          (set_down_state NOT_READY
             (printf MsgTimerExpired
                (emit (TimerArm WatchdogTimer 60) (globals m)))))).
Proof.
  intros E T. unfold watchdog_block. rewrite E. cbn [globals]. cbv zeta.
  unfold terminal in T. flag_reads. rewrite T.
  flag_facts. unfold start_download. flag_reads. reflexivity.
Qed.

Lemma watchdog_block_rearm (m : main_state) :
  TimerIsExpired (timer m) (globals m) = true ->
  terminal (globals m) = false ->
  globals (watchdog_block m) =
  printf MsgTimerExpired (emit (TimerArm WatchdogTimer 60) (globals m)).
Proof.
  intros E T. unfold watchdog_block. rewrite E. cbn [globals]. cbv zeta.
  unfold terminal in T. flag_reads. now rewrite T.
Qed.

(** C3, as the code has it.  Once [COMPLETED] or [CANCELED] is set, no
    event handler clears it, over any sequence of HTTP-client and Wi-Fi
    events; it is the watchdog block, on expiry, that resets the state and so
    clears both.  Until then a handler issues a request in exactly two
    cases, in which [start_download] runs without looking at the terminal
    flags: a disconnect with reason [-EAGAIN] while [WIFI_CONNECTED] is set,
    and an address-assigned notification while [GET_REQUESTED] and
    [DOWNLOADING] are both clear.  A sequence of events with neither kind
    issues none. *)
Theorem terminal_flags_persist (es : list event) (w : world) :
  is_state_set COMPLETED w || is_state_set CANCELED w = true ->
  (is_state_set COMPLETED w = true ->
   is_state_set COMPLETED (dispatch_all es w) = true) /\
  (is_state_set CANCELED w = true ->
   is_state_set CANCELED (dispatch_all es w) = true) /\
  is_state_set COMPLETED (dispatch_all es w)
    || is_state_set CANCELED (dispatch_all es w) = true /\
  (forall e : event,
      requests (dispatch e w) =
      (requests w + if retriggers e w then 1 else 0)%nat) /\
  (forallb (fun e => negb (calls_start_download e)) es = true ->
   requests (dispatch_all es w) = requests w) /\
  (forall t t1 : Timer,
      TimerIsExpired t w = true ->
      let m' := watchdog_block
                  {| globals := w; timer := t; oneSecondTimer := t1 |} in
      is_state_set COMPLETED (globals m') = false /\
      is_state_set CANCELED (globals m') = false).
Proof.
  intros T.
  assert (KC : is_state_set COMPLETED w = true ->
               is_state_set COMPLETED (dispatch_all es w) = true)
    by (apply dispatch_all_keeps, dispatch_keeps_completed).
  assert (KX : is_state_set CANCELED w = true ->
               is_state_set CANCELED (dispatch_all es w) = true)
    by (apply dispatch_all_keeps, dispatch_keeps_canceled).
  split; [exact KC |]. split; [exact KX |]. split; [| split; [| split]].
  - apply orb_true_iff in T as [C | C].
    + now rewrite KC.
    + rewrite KX by assumption. apply orb_true_r.
  - intros e. apply requests_dispatch.
  - apply requests_dispatch_all_quiet.
  - intros t t1 E m'. subst m'. rewrite watchdog_block_reset by assumption.
    flag_facts. cbn [globals]. flag_reads. split; reflexivity.
Qed.

End Terminal.

(** C3, as stated, fails.  The link comes up, the request is acknowledged and
    the server answers 404: [CANCELED] is set, one request has been issued.
    A disconnect with reason [-EAGAIN] then clears [GET_REQUESTED] and calls
    [start_download], which issues a second request although [CANCELED] is
    still set and no watchdog reset took place. *)
Lemma request_issued_while_canceled :
  let w := dispatch_all
             [Wifi (M2M_WIFI_REQ_DHCP_CONF 192 168 1 107);
              Http HTTP_CLIENT_CALLBACK_REQUESTED;
              Http (HTTP_CLIENT_CALLBACK_RECV_RESPONSE 404 0 None)]
             boot in
  let w' := dispatch (Http (HTTP_CLIENT_CALLBACK_DISCONNECTED (- EAGAIN))) w in
  is_state_set CANCELED w = true /\
  requests w = 1%nat /\
  is_state_set CANCELED w' = true /\
  requests w' = 2%nat.
Proof.
  vm_compute. repeat split.
Qed.

Lemma terminal_flags_persist_witness :
  let w := dispatch_all
             [Wifi (M2M_WIFI_REQ_DHCP_CONF 192 168 1 107);
              Http HTTP_CLIENT_CALLBACK_REQUESTED;
              Http (HTTP_CLIENT_CALLBACK_RECV_RESPONSE 404 0 None)]
             boot in
  requests
    (dispatch_all [Http (HTTP_CLIENT_CALLBACK_RECV_CHUNKED_DATA (Some [0]) 1 0);
                   Http (HTTP_CLIENT_CALLBACK_DISCONNECTED (- 104))] w) =
  requests w.
Proof.
  intros w.
  refine (proj1 (proj2 (proj2 (proj2 (proj2
    (@terminal_flags_persist asf_main_h
       [Http (HTTP_CLIENT_CALLBACK_RECV_CHUNKED_DATA (Some [0]) 1 0);
        Http (HTTP_CLIENT_CALLBACK_DISCONNECTED (- 104))] w _))))) _);
    reflexivity.
Defined.

(** ** The watchdog *)

Section Watchdog.

Context {H : MainH}.

(** A timer armed for less than [2^31] milliseconds is not expired while the
    clock stands still, and reports the whole window as left. *)
Lemma TimerCountdown_armed (timeout : Z) (w w' : world) :
  milliSeconds w' = milliSeconds w ->
  0 <= timeout * 1000 < 2 ^ 31 ->
  TimerIsExpired (TimerCountdown timeout w) w' = false /\
  TimerLeftMS (TimerCountdown timeout w) w' = timeout * 1000.
Proof.
  intros E R.
  assert (L : to_long (end_time (TimerCountdown timeout w) - milliSeconds w')
              = timeout * 1000).
  { cbn [TimerCountdown end_time]. rewrite E. unfold to_long, u32.
    rewrite Zminus_mod_idemp_l.
    replace (milliSeconds w + (timeout * 1000) mod 2 ^ 32 - milliSeconds w)
      with ((timeout * 1000) mod 2 ^ 32) by ring.
    rewrite Z.mod_mod by discriminate. rewrite Z.mod_small by lia.
    destruct (Z.ltb_spec (timeout * 1000) (2 ^ 31)); [reflexivity | lia]. }
  unfold TimerIsExpired, TimerLeftMS. cbv zeta. rewrite L.
  destruct (Z.ltb_spec (timeout * 1000) 0); [lia | split; reflexivity].
Qed.

Lemma watchdog_block_idle (m : main_state) :
  TimerIsExpired (timer m) (globals m) = false -> watchdog_block m = m.
Proof.
  intros E. unfold watchdog_block. now rewrite E.
Qed.

(** C4.  When the watchdog timer has expired, the watchdog block rearms it
    for 60 seconds.  With [COMPLETED] or [CANCELED] set it then resets the
    state to [NOT_READY], sets [WIFI_CONNECTED] and calls [start_download],
    which issues a request since no other flag is left.  With neither set
    the block only rearms: the state flags are unchanged and no request is
    issued.  The byte counters are not written in either case. *)
Theorem watchdog_expiry (m : main_state) :
  TimerIsExpired (timer m) (globals m) = true ->
  let m' := watchdog_block m in
  timer m' = TimerCountdown 60 (globals m) /\
  TimerIsExpired (timer m') (globals m') = false /\
  TimerLeftMS (timer m') (globals m') = 60000 /\
  oneSecondTimer m' = oneSecondTimer m /\
  http_file_size (globals m') = http_file_size (globals m) /\
  received_file_size (globals m') = received_file_size (globals m) /\
  if is_state_set COMPLETED (globals m) || is_state_set CANCELED (globals m)
  then
    down_state (globals m') = Z.lor NOT_READY WIFI_CONNECTED /\
    down_state (globals m') = WIFI_CONNECTED /\
    requests (globals m') = S (requests (globals m)) /\
    trace (globals m') =
      trace (globals m) ++ [TimerArm WatchdogTimer 60; Printf MsgTimerExpired;
                            Printf MsgSendingRequest; HttpSendRequest]
  else
    down_state (globals m') = down_state (globals m) /\
    requests (globals m') = requests (globals m) /\
    trace (globals m') =
      trace (globals m) ++ [TimerArm WatchdogTimer 60; Printf MsgTimerExpired].
Proof.
  intros E m'.
  assert (T : timer m' = TimerCountdown 60 (globals m)).
  { subst m'. unfold watchdog_block. now rewrite E. }
  assert (O : oneSecondTimer m' = oneSecondTimer m).
  { subst m'. unfold watchdog_block. now rewrite E. }
  fold (terminal (globals m)).
  destruct (terminal (globals m)) eqn:K.
  - pose proof (watchdog_block_reset m E K) as G. fold m' in G.
    assert (A : TimerIsExpired (timer m') (globals m') = false /\
                TimerLeftMS (timer m') (globals m') = 60000).
    { rewrite T. apply TimerCountdown_armed; [now rewrite G | lia]. }
    destruct A as [A1 A2].
    do 4 (split; [assumption |]).
    rewrite G. through_setters. rewrite NOT_READY_empty, Z.lor_0_l.
    repeat split.
    + unfold requests, count. simpl.
      rewrite <- !app_assoc, filter_app, length_app. simpl. lia.
    + simpl. now rewrite <- !app_assoc.
  - pose proof (watchdog_block_rearm m E K) as G. fold m' in G.
    assert (A : TimerIsExpired (timer m') (globals m') = false /\
                TimerLeftMS (timer m') (globals m') = 60000).
    { rewrite T. apply TimerCountdown_armed; [now rewrite G | lia]. }
    destruct A as [A1 A2].
    do 4 (split; [assumption |]).
    rewrite G. repeat split.
    + unfold requests, count. simpl.
      rewrite <- !app_assoc, filter_app, length_app. simpl. lia.
    + simpl. now rewrite <- !app_assoc.
Qed.

End Watchdog.

Lemma watchdog_expiry_witness :
  let m := {| globals := World COMPLETED 1000 1000 40001 [];
              timer := {| end_time := 40000 |};
              oneSecondTimer := {| end_time := 41000 |} |} in
  down_state (globals (watchdog_block m)) = WIFI_CONNECTED /\
  requests (globals (watchdog_block m)) = 1%nat.
Proof.
  intros m.
  pose proof (@watchdog_expiry asf_main_h m (@eq_refl bool true)) as W.
  cbv zeta in W. destruct W as (_ & _ & _ & _ & _ & _ & W).
  change (is_state_set COMPLETED (globals m) || is_state_set CANCELED (globals m))
    with true in W.
  destruct W as (_ & D & R & _). split; [exact D | exact R].
Defined.

(** ** The response headers *)

Section Headers.

Context {H : MainH}.

(** The two lengths after a response event. *)
Lemma recv_response_lengths (code cl : Z) (content : option (list Z))
    (w : world) :
  let w' := http_client_callback
              (HTTP_CLIENT_CALLBACK_RECV_RESPONSE code cl content) w in
  if code =? 200 then
    http_file_size w' = cl /\
    received_file_size w' =
      (if (cl <=? MAIN_BUFFER_MAX_SIZE) && counted content cl
       then u32 (0 + cl) else 0)
  else
    http_file_size w' = http_file_size w /\
    received_file_size w' = received_file_size w.
Proof.
  intros w'. subst w'. cbn [http_client_callback]. cbv zeta.
  destruct (code =? 200) eqn:Q; [| split; reflexivity].
  apply Z.eqb_eq in Q. subst code.
  destruct (cl <=? MAIN_BUFFER_MAX_SIZE); through_setters;
    [| split; reflexivity].
  cbn [andb]. destruct (counted content cl) eqn:K.
  - destruct (store_file_packet_counted_fields content cl
                (printf MsgCompletedResponse
                   (set_received_file_size 0
                      (set_http_file_size cl
                         (printf (MsgResponse 200 cl) w)))) K)
      as (-> & -> & _).
    unfold accumulated. through_setters.
    split; [reflexivity |].
    match goal with |- context [if ?b then _ else _] => destruct b end;
      reflexivity.
  - rewrite store_file_packet_ignored by assumption. split; reflexivity.
Qed.

(** C5.  On a response with code 200 the handler records the content length
    as the expected length and restarts the received length from zero:
    whatever had been received before is forgotten, and the count after the
    event is that of the inline body alone (nothing when no inline body is
    stored).  On any other code it sets [CANCELED] and returns: the two
    lengths are not written, no packet is stored, the transport is not
    closed, and its only output is the line that reports the response. *)
Theorem response_headers (code cl : Z) (content : option (list Z)) (w : world) :
  let e := HTTP_CLIENT_CALLBACK_RECV_RESPONSE code cl content in
  let w' := http_client_callback e w in
  if code =? 200 then
    http_file_size w' = cl /\
    received_file_size w' =
      (if (cl <=? MAIN_BUFFER_MAX_SIZE) && counted content cl
       then u32 (0 + cl) else 0) /\
    w' = http_client_callback e (set_received_file_size 0 w) /\
    is_state_set CANCELED w' = is_state_set CANCELED w
  else
    down_state w' = Z.lor (down_state w) CANCELED /\
    is_state_set CANCELED w' = true /\
    is_state_set COMPLETED w' = is_state_set COMPLETED w /\
    http_file_size w' = http_file_size w /\
    received_file_size w' = received_file_size w /\
    trace w' = trace w ++ [Printf (MsgResponse code cl)].
Proof.
  intros e w'. flag_facts.
  pose proof (http_client_callback_canceled e w) as X.
  pose proof (http_client_callback_completed e w) as C.
  pose proof (recv_response_lengths code cl content w) as L.
  cbv zeta in L. fold e in L. fold w' in X, C, L.
  subst e. cbn [cancels completes] in X, C.
  destruct (code =? 200) eqn:Q.
  - cbn [negb] in X. rewrite orb_false_r in X. destruct L as [Ls Lr].
    repeat split; try assumption.
    subst w'. cbn [http_client_callback]. now rewrite Q.
  - cbn [negb andb] in X, C. rewrite orb_true_r in X. rewrite orb_false_r in C.
    destruct L as [Ls Lr].
    assert (E : w' = add_state CANCELED (printf (MsgResponse code cl) w)).
    { subst w'. cbn [http_client_callback]. now rewrite Q. }
    repeat split; try assumption; now rewrite E.
Qed.

(** C6.  A 200 response whose content length is within
    [MAIN_BUFFER_MAX_SIZE] is finished inside the event: the handler hands
    the inline body to [store_file_packet], then closes the transport, then
    sets [COMPLETED].  The transport is closed once and no request is
    issued; a counted body is the whole received length afterwards. *)
Theorem inline_body_completes (cl : Z) (content : option (list Z)) (w : world) :
  cl <= MAIN_BUFFER_MAX_SIZE ->
  let w' := http_client_callback
              (HTTP_CLIENT_CALLBACK_RECV_RESPONSE 200 cl content) w in
  let w0 := printf MsgCompletedResponse
              (set_received_file_size 0
                 (set_http_file_size cl (printf (MsgResponse 200 cl) w))) in
  w' = add_state COMPLETED (emit HttpClose (store_file_packet content cl w0)) /\
  trace w' = trace (store_file_packet content cl w0) ++ [HttpClose] /\
  is_state_set COMPLETED w' = true /\
  closes w' = S (closes w) /\
  requests w' = requests w /\
  http_file_size w' = cl /\
  (counted content cl = true ->
   received_file_size w' = u32 cl /\
   is_state_set DOWNLOADING w' = true /\
   In (Printf (MsgPacket cl (u32 cl) cl)) (trace w')).
Proof.
  intros L w' w0. flag_facts.
  assert (E : w' = add_state COMPLETED
                     (emit HttpClose (store_file_packet content cl w0))).
  { subst w' w0. cbn [http_client_callback]. cbv zeta.
    apply Z.leb_le in L. rewrite L. reflexivity. }
  pose proof (recv_response_lengths 200 cl content w) as R.
  cbv zeta in R. fold w' in R. change (200 =? 200) with true in R.
  cbv iota in R. destruct R as (S & R).
  assert (L' := L). apply Z.leb_le in L'. rewrite L' in R. cbn [andb] in R.
  split; [exact E |]. split; [now rewrite E |].
  split; [rewrite E; now flag_reads |].
  split.
  { unfold closes. subst w'.
    rewrite count_http_client_callback by auto with flags.
    cbn [closes_transport retriggers is_close].
    rewrite L'. simpl. lia. }
  split.
  { unfold requests. subst w'.
    rewrite count_http_client_callback by auto with flags.
    cbn [closes_transport retriggers is_request].
    rewrite andb_false_r. simpl. lia. }
  split; [exact S |].
  intros K. rewrite K in R. split; [exact R |].
  rewrite E. flag_reads.
  destruct (store_file_packet_counted_fields content cl w0 K) as (_ & _ & D).
  split; [exact D |].
  through_setters. cbn [trace emit]. apply in_or_app. left.
  rewrite store_file_packet_counted by assumption. cbv zeta.
  assert (A : accumulated cl w0 = u32 cl).
  { unfold accumulated, w0. through_setters.
    match goal with |- context [if ?b then _ else _] => destruct b end;
      reflexivity. }
  rewrite A. subst w0. through_setters.
  destruct (cl <=? u32 cl); cbn [trace]; apply in_or_app; right; simpl; auto.
Qed.

End Headers.

Lemma inline_body_completes_witness :
  let w' := http_client_callback
              (HTTP_CLIENT_CALLBACK_RECV_RESPONSE 200 100 (Some (repeat 0 100)))
              boot in
  is_state_set COMPLETED w' = true /\ closes w' = 1%nat.
Proof.
  intros w'.
  pose proof (@inline_body_completes asf_main_h 100 (Some (repeat 0 100))
                (@boot asf_main_h)) as I.
  cbv zeta in I. fold w' in I.
  destruct I as (_ & _ & C & K & _); [vm_compute; discriminate |].
  split; [exact C | exact K].
Defined.

(** ** Disconnects *)

Section Disconnect.

Context {H : MainH}.

Lemma one_second_block_trace (m : main_state) :
  exists rest,
    trace (globals (one_second_block m)) = trace (globals m) ++ rest.
Proof.
  unfold one_second_block.
  destruct (TimerIsExpired (oneSecondTimer m) (globals m)).
  - cbn [globals]. simpl. rewrite <- !app_assoc. eauto.
  - exists []. now rewrite app_nil_r.
Qed.

Lemma watchdog_block_trace (m : main_state) :
  exists rest,
    trace (globals (watchdog_block m)) = trace (globals m) ++ rest.
Proof.
  destruct (TimerIsExpired (timer m) (globals m)) eqn:E.
  - destruct (terminal (globals m)) eqn:K.
    + rewrite watchdog_block_reset by assumption. simpl.
      rewrite <- !app_assoc. eauto.
    + rewrite watchdog_block_rearm by assumption. simpl.
      rewrite <- !app_assoc. eauto.
  - rewrite watchdog_block_idle by assumption.
    exists []. now rewrite app_nil_r.
Qed.

(** Whatever the timer blocks of an iteration emit comes after what the
    handlers of that iteration emitted. *)
Lemma loop_iteration_trace (es : list event) (m : main_state) :
  exists rest,
    trace (globals (loop_iteration es m)) =
    trace (dispatch_all es (globals m)) ++ rest.
Proof.
  unfold loop_iteration. cbv zeta.
  destruct (watchdog_block_trace
              (one_second_block
                 {| globals := dispatch_all es (globals m);
                    timer := timer m;
                    oneSecondTimer := oneSecondTimer m |})) as (r2 & ->).
  destruct (one_second_block_trace
              {| globals := dispatch_all es (globals m);
                 timer := timer m;
                 oneSecondTimer := oneSecondTimer m |}) as (r1 & ->).
  cbn [globals]. rewrite <- app_assoc. eauto.
Qed.

(** C7.  On a disconnect with reason [-EAGAIN] the handler clears
    [DOWNLOADING] and [GET_REQUESTED], leaves the other flags alone and calls
    [start_download] at once: the request goes out inside the handler, which
    touches no timer, whenever [WIFI_CONNECTED] is set, and whatever the
    timer blocks of the same loop iteration do comes after it.  On any other
    reason the handler prints the reason and does nothing else: no flag
    changes and no request is issued. *)
Theorem disconnect_retry (reason : Z) (w : world) :
  let e := HTTP_CLIENT_CALLBACK_DISCONNECTED reason in
  let w' := http_client_callback e w in
  (if reason =? - EAGAIN then
     w' = start_download
            (clear_state GET_REQUESTED
               (clear_state DOWNLOADING (printf (MsgDisconnect reason) w))) /\
     is_state_set DOWNLOADING w' = false /\
     is_state_set GET_REQUESTED w' = false /\
     is_state_set WIFI_CONNECTED w' = is_state_set WIFI_CONNECTED w /\
     is_state_set COMPLETED w' = is_state_set COMPLETED w /\
     is_state_set CANCELED w' = is_state_set CANCELED w /\
     requests w' =
       (requests w + if is_state_set WIFI_CONNECTED w then 1 else 0)%nat /\
     trace w' =
       trace w ++ Printf (MsgDisconnect reason) ::
         (if is_state_set WIFI_CONNECTED w
          then [Printf MsgSendingRequest; HttpSendRequest]
          else [Printf MsgWifiNotConnected])
   else
     down_state w' = down_state w /\
     requests w' = requests w /\
     trace w' = trace w ++ [Printf (MsgDisconnect reason)]) /\
  count is_timer_access (trace w') = count is_timer_access (trace w) /\
  http_file_size w' = http_file_size w /\
  received_file_size w' = received_file_size w /\
  (forall m : main_state,
      globals m = w ->
      exists rest,
        trace (globals (loop_iteration [Http e] m)) = trace w' ++ rest).
Proof.
  intros e w'. flag_facts.
  assert (T : count is_timer_access (trace w') = count is_timer_access (trace w)).
  { subst w' e. rewrite count_http_client_callback by auto with flags.
    cbn [closes_transport is_timer_access andb]. rewrite andb_false_r. lia. }
  assert (R : requests w' =
              (requests w + if retriggers (Http e) w then 1 else 0)%nat)
    by apply (requests_dispatch (Http e) w).
  assert (L : forall m : main_state, globals m = w ->
              exists rest,
                trace (globals (loop_iteration [Http e] m)) = trace w' ++ rest).
  { intros m <-. apply (loop_iteration_trace [Http e] m). }
  subst w' e. cbn [retriggers http_client_callback] in *. cbv zeta in *.
  destruct (reason =? - EAGAIN).
  - rewrite !conditional_clear in *. cbn [andb] in R.
    pose proof (start_download_sizes
                  (clear_state GET_REQUESTED
                     (clear_state DOWNLOADING
                        (printf (MsgDisconnect reason) w)))) as (Es & Er & _).
    split; [| now rewrite Es, Er].
    split; [reflexivity |].
    do 5 (split; [now flag_reads |]).
    split; [exact R |].
    rewrite start_download_trace. unfold may_request. flag_reads.
    through_setters. cbn [trace printf emit].
    rewrite <- app_assoc. cbn [app negb andb].
    destruct (is_state_set WIFI_CONNECTED w); reflexivity.
  - cbn [andb] in R. split; [| auto].
    repeat split. rewrite R. lia.
Qed.

End Disconnect.

(** ** The received length *)

Section Progress.

Context {H : MainH}.

Lemma fed_nonneg (e : event) : 0 <= fed e.
Proof.
  destruct e as [[| | code cl content | data len ic | reason |] | e];
    cbn [fed]; try lia.
  - destruct ((code =? 200) && (cl <=? MAIN_BUFFER_MAX_SIZE)); cbn [andb];
      [| lia].
    destruct content as [bytes |]; cbn [counted]; [| lia].
    destruct (Z.leb_spec 1 cl); lia.
  - destruct data as [bytes |]; cbn [counted]; [| lia].
    destruct (Z.leb_spec 1 len); lia.
Qed.

Lemma wifi_cb_received (e : wifi_event) (w : world) :
  received_file_size (wifi_cb e w) = received_file_size w.
Proof.
  destruct e as [[| |] | a b c d |]; cbn [wifi_cb]; cbv zeta;
    rewrite ?conditional_clear; try reflexivity.
  now destruct (start_download_sizes
                  (add_state WIFI_CONNECTED (printf (MsgIpAddress a b c d) w)))
    as (_ & -> & _).
Qed.

(** The received length after one event, wrap-around included. *)
Lemma dispatch_received (e : event) (w : world) :
  received_file_size (dispatch e w) =
  if restarts e w then u32 (0 + fed e)
  else if fed e =? 0 then received_file_size w
  else u32 (received_file_size w + fed e).
Proof.
  destruct e as [[| | code cl content | data len ic | reason |] | e];
    cbn [dispatch restarts fed]; try reflexivity.
  - pose proof (recv_response_lengths code cl content w) as R. cbv zeta in R.
    destruct (code =? 200).
    + destruct R as (_ & ->). cbn [andb].
      destruct ((cl <=? MAIN_BUFFER_MAX_SIZE) && counted content cl);
        reflexivity.
    + destruct R as (_ & ->). reflexivity.
  - assert (E : received_file_size
                  (http_client_callback
                     (HTTP_CLIENT_CALLBACK_RECV_CHUNKED_DATA data len ic) w) =
                received_file_size (store_file_packet data len w)).
    { cbn [http_client_callback]. cbv zeta. now destruct (negb (ic =? 0)). }
    rewrite E. destruct (counted data len) eqn:K.
    + destruct (store_file_packet_counted_fields data len w K) as (-> & _).
      unfold accumulated. cbn [andb].
      destruct (is_state_set DOWNLOADING w); cbn [negb]; [| reflexivity].
      destruct (Z.eqb_spec len 0) as [-> | _]; [| reflexivity].
      destruct data; discriminate.
    + now rewrite store_file_packet_ignored.
  - cbn [http_client_callback]. cbv zeta.
    destruct (reason =? - EAGAIN); [| reflexivity].
    rewrite !conditional_clear.
    now destruct (start_download_sizes
                    (clear_state GET_REQUESTED
                       (clear_state DOWNLOADING
                          (printf (MsgDisconnect reason) w))))
      as (_ & -> & _).
  - apply wifi_cb_received.
Qed.

Lemma timer_blocks_received (m : main_state) :
  received_file_size (globals (watchdog_block (one_second_block m))) =
  received_file_size (globals m).
Proof.
  assert (O : received_file_size (globals (one_second_block m)) =
              received_file_size (globals m)).
  { unfold one_second_block.
    now destruct (TimerIsExpired (oneSecondTimer m) (globals m)). }
  rewrite <- O. generalize (one_second_block m). clear. intros m.
  destruct (TimerIsExpired (timer m) (globals m)) eqn:E.
  - destruct (terminal (globals m)) eqn:K.
    + now rewrite watchdog_block_reset.
    + now rewrite watchdog_block_rearm.
  - now rewrite watchdog_block_idle.
Qed.

(** C9, as the code has it.  As long as the 32-bit counter does not
    overflow, every event either restarts the received length from zero or
    adds to it what the event delivered; it restarts at a 200 response and at
    a counted chunk that finds [DOWNLOADING] unset, and at no other event.
    So between two restarts the received length never decreases.  The timer
    blocks of the main loop do not write it. *)
Theorem received_length_progress (e : event) (w : world) :
  0 <= received_file_size w ->
  received_file_size w + fed e < 2 ^ 32 ->
  received_file_size (dispatch e w) =
    (if restarts e w then 0 else received_file_size w) + fed e /\
  (restarts e w = false ->
   received_file_size w <= received_file_size (dispatch e w)) /\
  (forall m : main_state,
      globals m = w ->
      received_file_size (globals (loop_iteration [e] m)) =
      received_file_size (dispatch e w)).
Proof.
  intros P B. pose proof (fed_nonneg e) as F.
  assert (E : received_file_size (dispatch e w) =
              (if restarts e w then 0 else received_file_size w) + fed e).
  { rewrite dispatch_received. unfold u32.
    destruct (restarts e w).
    - apply Z.mod_small. lia.
    - destruct (Z.eqb_spec (fed e) 0) as [-> | _]; [lia |].
      apply Z.mod_small. lia. }
  split; [exact E |]. split.
  - intros N. rewrite E, N. lia.
  - intros m <-. unfold loop_iteration. cbv zeta.
    now rewrite timer_blocks_received.
Qed.

End Progress.

(** C9, as stated, fails on overflow.  A 200 response announces 4294967295
    bytes; a first chunk of 4294967294 bytes starts the attempt and is
    counted in full; the next chunk, of 2 bytes, finds [DOWNLOADING] set, so
    the attempt is under way, and wraps the counter around to zero. *)
Lemma received_length_wraps :
  let w := dispatch_all
             [Wifi (M2M_WIFI_REQ_DHCP_CONF 192 168 1 107);
              Http HTTP_CLIENT_CALLBACK_REQUESTED;
              Http (HTTP_CLIENT_CALLBACK_RECV_RESPONSE 200 4294967295 None);
              Http (HTTP_CLIENT_CALLBACK_RECV_CHUNKED_DATA
                      (Some [0]) 4294967294 0)]
             boot in
  let e := Http (HTTP_CLIENT_CALLBACK_RECV_CHUNKED_DATA (Some [0]) 2 0) in
  is_state_set DOWNLOADING w = true /\
  is_state_set COMPLETED w = false /\
  restarts e w = false /\
  received_file_size w = 4294967294 /\
  received_file_size (dispatch e w) = 0.
Proof.
  vm_compute. repeat split.
Qed.

Lemma received_length_progress_witness :
  let w := dispatch_all
             [Http (HTTP_CLIENT_CALLBACK_RECV_RESPONSE 200 5000 None);
              Http (HTTP_CLIENT_CALLBACK_RECV_CHUNKED_DATA (Some [0]) 1400 0)]
             boot in
  received_file_size
    (dispatch (Http (HTTP_CLIENT_CALLBACK_RECV_CHUNKED_DATA (Some [0]) 1400 0))
              w) = 2800.
Proof.
  intros w.
  refine (proj1 (@received_length_progress asf_main_h
            (Http (HTTP_CLIENT_CALLBACK_RECV_CHUNKED_DATA (Some [0]) 1400 0))
            w _ _)).
  - vm_compute. discriminate.
  - vm_compute. reflexivity.
Defined.

(** * Further properties of the code *)

(** ** The state tracker *)

Section Tracker.

Context {H : MainH}.

(** X1.  The tracker behaves as a set of flags for any two masks that share
    no bit: a flag reads as set after [add_state] and as unset after
    [clear_state], neither call changes how the other mask reads, and after
    [init_state] every mask reads as unset. *)
Theorem state_tracker_contract (m m' : Z) (w : world) :
  m <> 0 ->
  Z.land m m' = 0 ->
  is_state_set m (add_state m w) = true /\
  is_state_set m (clear_state m w) = false /\
  is_state_set m' (add_state m w) = is_state_set m' w /\
  is_state_set m' (clear_state m w) = is_state_set m' w /\
  is_state_set m (init_state w) = false /\
  is_state_set m' (init_state w) = false.
Proof.
  intros N D. repeat split.
  - now apply is_state_set_add_same.
  - apply is_state_set_clear_same.
  - now apply is_state_set_add_other.
  - now apply is_state_set_clear_other.
  - apply is_state_set_NOT_READY.
  - apply is_state_set_NOT_READY.
Qed.

(** X2.  Setting a flag twice is setting it once, and so for clearing;
    clearing a flag that was set on a state where it was absent gives the
    state back, and setting a flag that was cleared on a state where all its
    bits were present gives the state back. *)
Theorem add_clear_round_trip (m : Z) (w : world) :
  add_state m (add_state m w) = add_state m w /\
  clear_state m (clear_state m w) = clear_state m w /\
  (Z.land (down_state w) m = 0 -> clear_state m (add_state m w) = w) /\
  (Z.land (down_state w) m = m -> add_state m (clear_state m w) = w).
Proof.
  destruct w as [s hs rs ms t].
  unfold add_state, clear_state, set_down_state. cbn.
  repeat split.
  - f_equal. now rewrite <- Z.lor_assoc, Z.lor_diag.
  - f_equal. now rewrite <- Z.land_assoc, Z.land_diag.
  - intros E. f_equal. apply Z.bits_inj'. intros n Hn.
    pose proof (land_disjoint_bits _ _ E n) as B.
    rewrite Z.land_spec, Z.lor_spec, Z.lnot_spec by assumption.
    destruct (Z.testbit s n), (Z.testbit m n); simpl in *; congruence.
  - intros E. f_equal. apply Z.bits_inj'. intros n Hn.
    assert (B : Z.testbit s n && Z.testbit m n = Z.testbit m n)
      by now rewrite <- Z.land_spec, E.
    rewrite Z.lor_spec, Z.land_spec, Z.lnot_spec by assumption.
    destruct (Z.testbit s n), (Z.testbit m n); simpl in *; congruence.
Qed.

(** X3.  [start_download] does not record that a request is under way: called
    [n] times in a row it sends [n] requests when its guard holds and none
    when it does not.  Only the [REQUESTED] event of the HTTP client, which
    comes later, makes the guard fail. *)
Theorem start_download_repeated (n : nat) (w : world) :
  requests (Nat.iter n start_download w) =
    (requests w + if may_request w then n else 0)%nat /\
  down_state (Nat.iter n start_download w) = down_state w /\
  requests (start_download
              (http_client_callback HTTP_CLIENT_CALLBACK_REQUESTED
                 (start_download w))) =
    (requests w + if may_request w then 1 else 0)%nat.
Proof.
  assert (D : forall k, down_state (Nat.iter k start_download w) = down_state w).
  { induction k as [| k IH]; [reflexivity |].
    change (Nat.iter (S k) start_download w)
      with (start_download (Nat.iter k start_download w)).
    now rewrite start_download_down_state. }
  split; [| split; [apply D |]].
  - induction n as [| n IH].
    + cbn. destruct (may_request w); lia.
    + change (Nat.iter (S n) start_download w)
        with (start_download (Nat.iter n start_download w)).
      rewrite start_download_requests, IH. unfold may_request.
      rewrite !(is_state_set_ext _ _ w (D n)).
      fold (may_request w). destruct (may_request w); lia.
  - flag_facts. rewrite !start_download_requests.
    unfold may_request at 1. cbn [http_client_callback]. flag_reads.
    rewrite andb_false_r. cbn [andb].
    unfold requests at 1. through_setters.
    rewrite count_printf by auto with flags.
    fold (requests (start_download w)). rewrite start_download_requests. lia.
Qed.

End Tracker.

Lemma state_tracker_contract_witness :
  is_state_set 8 (add_state 8 (World 4 0 0 0 [])) = true /\
  is_state_set 4 (clear_state 8 (World 12 0 0 0 [])) = true.
Proof.
  split.
  - apply (@state_tracker_contract asf_main_h 8 4 (World 4 0 0 0 []));
      [discriminate | reflexivity].
  - refine (eq_trans
              (proj1 (proj2 (proj2 (proj2
                 (@state_tracker_contract asf_main_h 8 4 (World 12 0 0 0 [])
                    _ _))))) _);
      [discriminate | reflexivity | reflexivity].
Defined.

(** ** What each handler does to the attempt flags *)

Section HandlerFlags.

Context {H : MainH}.

Lemma store_file_packet_downloading (data : option (list Z)) (length : Z)
    (w : world) :
  is_state_set DOWNLOADING (store_file_packet data length w) =
  is_state_set DOWNLOADING w || counted data length.
Proof.
  destruct (counted data length) eqn:K.
  - destruct (store_file_packet_counted_fields data length w K) as (_ & _ & ->).
    now rewrite orb_true_r.
  - rewrite store_file_packet_ignored by assumption.
    now rewrite is_state_set_printf, orb_false_r.
Qed.

Lemma http_client_callback_wifi_connected (e : http_client_event) (w : world) :
  is_state_set WIFI_CONNECTED (http_client_callback e w) =
  is_state_set WIFI_CONNECTED w.
Proof.
  flag_facts.
  destruct e as [| | code cl content | data len ic | reason |];
    cbn [http_client_callback]; cbv zeta.
  - reflexivity.
  - now flag_reads.
  - destruct (code =? 200); [destruct (cl <=? MAIN_BUFFER_MAX_SIZE) |];
      flag_reads; rewrite ?is_state_set_store_file_packet by assumption;
      now flag_reads.
  - destruct (negb (ic =? 0)); flag_reads;
      now rewrite is_state_set_store_file_packet by assumption.
  - destruct (reason =? - EAGAIN); now flag_reads.
  - reflexivity.
Qed.

Lemma http_client_callback_get_requested (e : http_client_event) (w : world) :
  is_state_set GET_REQUESTED (http_client_callback e w) =
  match e with
  | HTTP_CLIENT_CALLBACK_REQUESTED => true
  | HTTP_CLIENT_CALLBACK_DISCONNECTED reason =>
      negb (reason =? - EAGAIN) && is_state_set GET_REQUESTED w
  | _ => is_state_set GET_REQUESTED w
  end.
Proof.
  flag_facts.
  destruct e as [| | code cl content | data len ic | reason |];
    cbn [http_client_callback]; cbv zeta.
  - reflexivity.
  - now flag_reads.
  - destruct (code =? 200); [destruct (cl <=? MAIN_BUFFER_MAX_SIZE) |];
      flag_reads; rewrite ?is_state_set_store_file_packet by assumption;
      now flag_reads.
  - destruct (negb (ic =? 0)); flag_reads;
      now rewrite is_state_set_store_file_packet by assumption.
  - destruct (reason =? - EAGAIN); now flag_reads.
  - reflexivity.
Qed.

Lemma http_client_callback_downloading (e : http_client_event) (w : world) :
  is_state_set DOWNLOADING (http_client_callback e w) =
  match e with
  | HTTP_CLIENT_CALLBACK_RECV_RESPONSE code cl content =>
      is_state_set DOWNLOADING w
      || ((code =? 200) && (cl <=? MAIN_BUFFER_MAX_SIZE) && counted content cl)
  | HTTP_CLIENT_CALLBACK_RECV_CHUNKED_DATA data len _ =>
      is_state_set DOWNLOADING w || counted data len
  | HTTP_CLIENT_CALLBACK_DISCONNECTED reason =>
      negb (reason =? - EAGAIN) && is_state_set DOWNLOADING w
  | _ => is_state_set DOWNLOADING w
  end.
Proof.
  flag_facts.
  destruct e as [| | code cl content | data len ic | reason |];
    cbn [http_client_callback]; cbv zeta.
  - reflexivity.
  - now flag_reads.
  - destruct (code =? 200); [destruct (cl <=? MAIN_BUFFER_MAX_SIZE) |];
      flag_reads; rewrite ?store_file_packet_downloading; flag_reads;
      cbn [andb]; rewrite ?orb_false_r; reflexivity.
  - destruct (negb (ic =? 0)); flag_reads;
      now rewrite store_file_packet_downloading.
  - destruct (reason =? - EAGAIN); now flag_reads.
  - reflexivity.
Qed.

(** X4.  The HTTP-client handler never touches [WIFI_CONNECTED].
    [GET_REQUESTED] is set by the [REQUESTED] event alone and [DOWNLOADING] by
    a counted packet alone (a chunk, or the inline body of a 200 response);
    both are cleared by a disconnect with reason [-EAGAIN] and by no other
    HTTP-client event. *)
Theorem http_client_callback_flags (e : http_client_event) (w : world) :
  let w' := http_client_callback e w in
  is_state_set WIFI_CONNECTED w' = is_state_set WIFI_CONNECTED w /\
  is_state_set GET_REQUESTED w' =
    match e with
    | HTTP_CLIENT_CALLBACK_REQUESTED => true
    | HTTP_CLIENT_CALLBACK_DISCONNECTED reason =>
        negb (reason =? - EAGAIN) && is_state_set GET_REQUESTED w
    | _ => is_state_set GET_REQUESTED w
    end /\
  is_state_set DOWNLOADING w' =
    match e with
    | HTTP_CLIENT_CALLBACK_RECV_RESPONSE code cl content =>
        is_state_set DOWNLOADING w
        || ((code =? 200) && (cl <=? MAIN_BUFFER_MAX_SIZE)
            && counted content cl)
    | HTTP_CLIENT_CALLBACK_RECV_CHUNKED_DATA data len _ =>
        is_state_set DOWNLOADING w || counted data len
    | HTTP_CLIENT_CALLBACK_DISCONNECTED reason =>
        negb (reason =? - EAGAIN) && is_state_set DOWNLOADING w
    | _ => is_state_set DOWNLOADING w
    end.
Proof.
  intros w'. subst w'. split; [| split].
  - apply http_client_callback_wifi_connected.
  - apply http_client_callback_get_requested.
  - apply http_client_callback_downloading.
Qed.

Lemma wifi_cb_attempt_flag (m : Z) (e : wifi_event) (w : world) :
  m = GET_REQUESTED \/ m = DOWNLOADING ->
  is_state_set m (wifi_cb e w) =
  match e with
  | M2M_WIFI_RESP_CON_STATE_CHANGED M2M_WIFI_DISCONNECTED => false
  | _ => is_state_set m w
  end.
Proof.
  flag_facts.
  intros [-> | ->]; destruct e as [[| |] | a b c d |];
    cbn [wifi_cb]; cbv zeta; now flag_reads.
Qed.

Lemma wifi_cb_wifi_connected (e : wifi_event) (w : world) :
  is_state_set WIFI_CONNECTED (wifi_cb e w) =
  match e with
  | M2M_WIFI_RESP_CON_STATE_CHANGED M2M_WIFI_DISCONNECTED => false
  | M2M_WIFI_REQ_DHCP_CONF _ _ _ _ => true
  | _ => is_state_set WIFI_CONNECTED w
  end.
Proof.
  flag_facts.
  destruct e as [[| |] | a b c d |]; cbn [wifi_cb]; cbv zeta; now flag_reads.
Qed.

Lemma wifi_cb_sizes (e : wifi_event) (w : world) :
  http_file_size (wifi_cb e w) = http_file_size w /\
  received_file_size (wifi_cb e w) = received_file_size w.
Proof.
  split; [| apply wifi_cb_received].
  destruct e as [[| |] | a b c d |]; cbn [wifi_cb]; cbv zeta;
    rewrite ?conditional_clear; try reflexivity.
  now destruct (start_download_sizes
                  (add_state WIFI_CONNECTED (printf (MsgIpAddress a b c d) w)))
    as (-> & _).
Qed.

(** X5.  The Wi-Fi handler: a link loss clears [WIFI_CONNECTED],
    [GET_REQUESTED] and [DOWNLOADING] and asks the driver to reconnect; an
    address assignment sets [WIFI_CONNECTED]; a link-up notification only
    asks for an address.  No Wi-Fi event changes [COMPLETED], [CANCELED] or
    the two byte counters, and only the address assignment can send a
    request, which it does when no attempt is in flight. *)
Theorem wifi_cb_effect (e : wifi_event) (w : world) :
  let w' := wifi_cb e w in
  is_state_set WIFI_CONNECTED w' =
    match e with
    | M2M_WIFI_RESP_CON_STATE_CHANGED M2M_WIFI_DISCONNECTED => false
    | M2M_WIFI_REQ_DHCP_CONF _ _ _ _ => true
    | _ => is_state_set WIFI_CONNECTED w
    end /\
  is_state_set GET_REQUESTED w' =
    match e with
    | M2M_WIFI_RESP_CON_STATE_CHANGED M2M_WIFI_DISCONNECTED => false
    | _ => is_state_set GET_REQUESTED w
    end /\
  is_state_set DOWNLOADING w' =
    match e with
    | M2M_WIFI_RESP_CON_STATE_CHANGED M2M_WIFI_DISCONNECTED => false
    | _ => is_state_set DOWNLOADING w
    end /\
  is_state_set COMPLETED w' = is_state_set COMPLETED w /\
  is_state_set CANCELED w' = is_state_set CANCELED w /\
  http_file_size w' = http_file_size w /\
  received_file_size w' = received_file_size w /\
  requests w' =
    (requests w +
     match e with
     | M2M_WIFI_REQ_DHCP_CONF _ _ _ _ => if in_flight w then 0 else 1
     | _ => 0
     end)%nat /\
  count (fun a => match a with WifiConnect => true | _ => false end) (trace w') =
    (count (fun a => match a with WifiConnect => true | _ => false end) (trace w)
     + match e with
       | M2M_WIFI_RESP_CON_STATE_CHANGED M2M_WIFI_DISCONNECTED => 1
       | _ => 0
       end)%nat /\
  count (fun a => match a with WifiRequestDhcp => true | _ => false end)
        (trace w') =
    (count (fun a => match a with WifiRequestDhcp => true | _ => false end)
           (trace w)
     + match e with
       | M2M_WIFI_RESP_CON_STATE_CHANGED M2M_WIFI_CONNECTED => 1
       | _ => 0
       end)%nat.
Proof.
  intros w'. subst w'. flag_facts.
  split; [apply wifi_cb_wifi_connected |].
  split; [apply wifi_cb_attempt_flag; now left |].
  split; [apply wifi_cb_attempt_flag; now right |].
  split; [now apply is_state_set_wifi_cb |].
  split; [now apply is_state_set_wifi_cb |].
  split; [apply wifi_cb_sizes |]. split; [apply wifi_cb_sizes |].
  split; [| split].
  - unfold requests. rewrite count_wifi_cb by auto with flags.
    cbn [is_request]. rewrite andb_true_r. f_equal.
    destruct e as [[| |] | a b c d |]; cbn [retriggers]; try reflexivity.
    unfold in_flight.
    now destruct (is_state_set GET_REQUESTED w), (is_state_set DOWNLOADING w).
  - destruct e as [[| |] | a b c d |]; cbn [wifi_cb]; cbv zeta;
      rewrite ?conditional_clear, ?count_start_download, ?count_emit
        by (intros ?; reflexivity);
      through_setters;
      rewrite ?count_printf by (intros ?; reflexivity);
      rewrite ?andb_false_r; cbn; lia.
  - destruct e as [[| |] | a b c d |]; cbn [wifi_cb]; cbv zeta;
      rewrite ?conditional_clear, ?count_start_download, ?count_emit
        by (intros ?; reflexivity);
      through_setters;
      rewrite ?count_printf by (intros ?; reflexivity);
      rewrite ?andb_false_r; cbn; lia.
Qed.

End HandlerFlags.

(** ** Attempts in flight *)

Section InFlight.

Context {H : MainH}.

Lemma dispatch_get_requested_kept (e : event) (w : world) :
  drops_attempt e = false ->
  is_state_set GET_REQUESTED w = true ->
  is_state_set GET_REQUESTED (dispatch e w) = true.
Proof.
  intros D G. destruct e as [e | e]; cbn [dispatch].
  - rewrite http_client_callback_get_requested.
    destruct e; try assumption; try reflexivity.
    cbn [drops_attempt] in D. now rewrite D.
  - rewrite (wifi_cb_attempt_flag GET_REQUESTED) by now left.
    destruct e as [[| |] | |]; try assumption. discriminate.
Qed.

Lemma dispatch_downloading_kept (e : event) (w : world) :
  drops_attempt e = false ->
  is_state_set DOWNLOADING w = true ->
  is_state_set DOWNLOADING (dispatch e w) = true.
Proof.
  intros D G. destruct e as [e | e]; cbn [dispatch].
  - rewrite http_client_callback_downloading.
    destruct e; rewrite ?G; try reflexivity.
    cbn [drops_attempt] in D. now rewrite D.
  - rewrite (wifi_cb_attempt_flag DOWNLOADING) by now right.
    destruct e as [[| |] | |]; try assumption. discriminate.
Qed.

Lemma dispatch_in_flight (e : event) (w : world) :
  drops_attempt e = false ->
  in_flight w = true ->
  in_flight (dispatch e w) = true /\ requests (dispatch e w) = requests w.
Proof.
  intros D F. split.
  - unfold in_flight in *. apply orb_true_iff in F as [G | G].
    + now rewrite dispatch_get_requested_kept.
    + rewrite dispatch_downloading_kept by assumption. apply orb_true_r.
  - rewrite requests_dispatch.
    assert (R : retriggers e w = false).
    { destruct e as [[| | | | reason |] | [| |]]; try reflexivity;
        cbn [retriggers drops_attempt] in *.
      - now rewrite D.
      - unfold in_flight in F.
        now destruct (is_state_set GET_REQUESTED w),
                     (is_state_set DOWNLOADING w). }
    rewrite R. lia.
Qed.

(** X6.  While an attempt is in flight ([GET_REQUESTED] or [DOWNLOADING]
    set), no sequence of HTTP-client and Wi-Fi events sends a second request
    or ends the attempt, unless it contains a disconnect with reason
    [-EAGAIN] or a loss of the link. *)
Theorem no_request_while_in_flight (es : list event) (w : world) :
  in_flight w = true ->
  forallb (fun e => negb (drops_attempt e)) es = true ->
  in_flight (dispatch_all es w) = true /\
  requests (dispatch_all es w) = requests w.
Proof.
  revert w. induction es as [| e es IH]; intros w F Q; [auto |].
  cbn [forallb] in Q. apply andb_true_iff in Q as [Qe Qs].
  apply negb_true_iff in Qe.
  destruct (dispatch_in_flight e w Qe F) as [F1 R1].
  change (dispatch_all (e :: es) w) with (dispatch_all es (dispatch e w)).
  destruct (IH (dispatch e w) F1 Qs) as [F2 R2].
  split; [exact F2 | congruence].
Qed.

(** X7.  A loss of the link followed by an address assignment always sends
    exactly one request, whatever the state was: mid-transfer, [COMPLETED] or
    [CANCELED].  The terminal flags and the byte counters are carried over
    into the new attempt as they were. *)
Theorem reconnect_restarts (a b c d : Z) (w : world) :
  let w' := wifi_cb (M2M_WIFI_REQ_DHCP_CONF a b c d)
              (wifi_cb (M2M_WIFI_RESP_CON_STATE_CHANGED M2M_WIFI_DISCONNECTED)
                       w) in
  requests w' = S (requests w) /\
  is_state_set WIFI_CONNECTED w' = true /\
  in_flight w' = false /\
  is_state_set COMPLETED w' = is_state_set COMPLETED w /\
  is_state_set CANCELED w' = is_state_set CANCELED w /\
  http_file_size w' = http_file_size w /\
  received_file_size w' = received_file_size w.
Proof.
  intros w'. subst w'. flag_facts.
  set (w1 := wifi_cb (M2M_WIFI_RESP_CON_STATE_CHANGED M2M_WIFI_DISCONNECTED) w).
  assert (G1 : is_state_set GET_REQUESTED w1 = false)
    by (unfold w1; now rewrite (wifi_cb_attempt_flag GET_REQUESTED) by now left).
  assert (D1 : is_state_set DOWNLOADING w1 = false)
    by (unfold w1; now rewrite (wifi_cb_attempt_flag DOWNLOADING) by now right).
  split.
  { unfold requests. rewrite count_wifi_cb by auto with flags.
    cbn [retriggers is_request]. rewrite G1, D1. cbn [negb andb].
    unfold w1. rewrite count_wifi_cb by auto with flags.
    cbn [retriggers andb]. lia. }
  split; [now rewrite wifi_cb_wifi_connected |].
  split.
  { unfold in_flight.
    rewrite (wifi_cb_attempt_flag GET_REQUESTED) by now left.
    rewrite (wifi_cb_attempt_flag DOWNLOADING) by now right.
    now rewrite G1, D1. }
  unfold w1.
  split; [now rewrite !is_state_set_wifi_cb by assumption |].
  split; [now rewrite !is_state_set_wifi_cb by assumption |].
  split.
  - now rewrite !(proj1 (wifi_cb_sizes _ _)).
  - now rewrite !wifi_cb_received.
Qed.

(** X8.  After an event that drops the attempt (a disconnect with reason
    [-EAGAIN] or a loss of the link), the next counted chunk starts the count
    again: the received length is the length of that chunk alone, whatever
    had been received before. *)
Theorem progress_discarded_after_drop
    (e : event) (bytes : list Z) (length is_complete : Z) (w : world) :
  drops_attempt e = true ->
  1 <= length ->
  received_file_size
    (dispatch
       (Http (HTTP_CLIENT_CALLBACK_RECV_CHUNKED_DATA
                (Some bytes) length is_complete))
       (dispatch e w)) = u32 length.
Proof.
  intros D L.
  assert (F : is_state_set DOWNLOADING (dispatch e w) = false).
  { destruct e as [[| | | | reason |] | [[| |] | |]]; try discriminate;
      cbn [dispatch drops_attempt] in *.
    - rewrite http_client_callback_downloading. now rewrite D.
    - now rewrite (wifi_cb_attempt_flag DOWNLOADING) by now right. }
  rewrite dispatch_received. cbn [restarts fed counted].
  apply Z.leb_le in L. rewrite L, F. reflexivity.
Qed.

End InFlight.

Lemma no_request_while_in_flight_witness :
  requests
    (dispatch_all
       [Wifi (M2M_WIFI_REQ_DHCP_CONF 10 0 0 2);
        Http (HTTP_CLIENT_CALLBACK_RECV_CHUNKED_DATA (Some [1]) 1 0);
        Http (HTTP_CLIENT_CALLBACK_DISCONNECTED (- 104))]
       (World 6 0 0 0 [])) = 0%nat.
Proof.
  refine (proj2 (@no_request_while_in_flight asf_main_h
            [Wifi (M2M_WIFI_REQ_DHCP_CONF 10 0 0 2);
             Http (HTTP_CLIENT_CALLBACK_RECV_CHUNKED_DATA (Some [1]) 1 0);
             Http (HTTP_CLIENT_CALLBACK_DISCONNECTED (- 104))]
            (World 6 0 0 0 []) _ _)); reflexivity.
Defined.

Lemma progress_discarded_after_drop_witness :
  received_file_size
    (dispatch
       (Http (HTTP_CLIENT_CALLBACK_RECV_CHUNKED_DATA (Some [7; 7]) 2 0))
       (dispatch (Http (HTTP_CLIENT_CALLBACK_DISCONNECTED (- EAGAIN)))
                 (World 14 5000 1400 0 []))) = 2.
Proof.
  refine (@progress_discarded_after_drop asf_main_h
            (Http (HTTP_CLIENT_CALLBACK_DISCONNECTED (- EAGAIN)))
            [7; 7] 2 0 (World 14 5000 1400 0 []) _ _);
    [reflexivity | lia].
Defined.

(** ** Downloads by byte count *)

Section ByCount.

Context {H : MainH}.

Lemma total_length_nonneg (ps : list (list Z * Z)) :
  Forall (fun p => 1 <= snd p) ps -> 0 <= total_length ps.
Proof.
  induction 1 as [| p ps P _ IH]; cbn [total_length fold_right]; [lia |].
  fold (total_length ps). lia.
Qed.

(** A run of plain chunks on a state where [DOWNLOADING] is set. *)
Lemma plain_chunks_run (ps : list (list Z * Z)) (w : world) :
  Forall (fun p => 1 <= snd p) ps ->
  is_state_set DOWNLOADING w = true ->
  0 <= received_file_size w ->
  received_file_size w + total_length ps < 2 ^ 32 ->
  let w' := http_run (plain_chunks ps) w in
  received_file_size w' = received_file_size w + total_length ps /\
  http_file_size w' = http_file_size w /\
  is_state_set DOWNLOADING w' = true /\
  is_state_set COMPLETED w' =
    is_state_set COMPLETED w
    || (negb (length ps =? 0)%nat
        && (http_file_size w <=? received_file_size w + total_length ps)).
Proof.
  intros P. revert w.
  induction P as [| p ps L P IH]; intros w D R B w'; subst w'.
  - cbn. rewrite Z.add_0_r, orb_false_r. auto.
  - cbn [plain_chunks map total_length fold_right] in *.
    fold (total_length ps) in *. fold (plain_chunks ps).
    pose proof (total_length_nonneg ps P) as T.
    change (http_run
              (HTTP_CLIENT_CALLBACK_RECV_CHUNKED_DATA (Some (fst p)) (snd p) 0
                 :: plain_chunks ps) w)
      with (http_run (plain_chunks ps)
              (http_client_callback
                 (HTTP_CLIENT_CALLBACK_RECV_CHUNKED_DATA
                    (Some (fst p)) (snd p) 0) w)).
    destruct (plain_chunk_fields (fst p) (snd p) w L) as (R1 & S1 & D1 & C1).
    assert (A : accumulated (snd p) w = received_file_size w + snd p).
    { unfold accumulated, u32. rewrite D. apply Z.mod_small. lia. }
    rewrite A in R1, C1.
    destruct (IH _ D1) as (R2 & S2 & D2 & C2); [lia | lia |].
    rewrite R2, S2, D2, C2, R1, S1, C1.
    repeat split; try lia.
    cbn [length Nat.eqb negb andb]. rewrite <- orb_assoc. f_equal.
    replace (received_file_size w + snd p + total_length ps)
      with (received_file_size w + (snd p + total_length ps)) by ring.
    assert (Z0 : (length ps =? 0)%nat = true -> total_length ps = 0)
      by (destruct ps; [reflexivity | discriminate]).
    destruct (Z.leb_spec (http_file_size w) (received_file_size w + snd p));
      destruct (Z.leb_spec (http_file_size w)
                  (received_file_size w + (snd p + total_length ps)));
      destruct (length ps =? 0)%nat; cbn; try reflexivity;
      try specialize (Z0 eq_refl); lia.
Qed.

(** X9.  A run of chunks that carry data and no final-chunk signal, starting
    an attempt ([DOWNLOADING] and [COMPLETED] unset), below the 32-bit range:
    the received length ends as the sum of the chunk lengths, and
    [COMPLETED] is set at the end exactly when that sum has reached the
    expected length. *)
Theorem chunks_complete_by_sum
    (p : list Z * Z) (ps : list (list Z * Z)) (w : world) :
  Forall (fun p => 1 <= snd p) (p :: ps) ->
  is_state_set DOWNLOADING w = false ->
  is_state_set COMPLETED w = false ->
  total_length (p :: ps) < 2 ^ 32 ->
  let w' := http_run (plain_chunks (p :: ps)) w in
  received_file_size w' = total_length (p :: ps) /\
  http_file_size w' = http_file_size w /\
  is_state_set DOWNLOADING w' = true /\
  (is_state_set COMPLETED w' = true <->
   http_file_size w <= total_length (p :: ps)) /\
  closes w' = closes w /\
  requests w' = requests w.
Proof.
  intros P D C B w'.
  inversion P as [| p' ps' L P']; subst p' ps'.
  pose proof (total_length_nonneg ps P') as T.
  cbn [total_length fold_right] in *. fold (total_length ps) in *.
  destruct (plain_chunk_fields (fst p) (snd p) w L) as (R1 & S1 & D1 & C1).
  assert (A : accumulated (snd p) w = snd p).
  { unfold accumulated, u32. rewrite D. apply Z.mod_small. lia. }
  rewrite A in R1, C1. rewrite C in C1. cbn [orb] in C1.
  set (w1 := http_client_callback
               (HTTP_CLIENT_CALLBACK_RECV_CHUNKED_DATA (Some (fst p)) (snd p) 0)
               w) in *.
  assert (E : w' = http_run (plain_chunks ps) w1) by reflexivity.
  destruct (plain_chunks_run ps w1 P' D1) as (R2 & S2 & D2 & C2);
    [lia | lia |].
  rewrite <- E in R2, S2, D2, C2.
  split; [lia |]. split; [congruence |]. split; [exact D2 |].
  split.
  { rewrite C2, C1, S1, R1. rewrite orb_true_iff, andb_true_iff, !Z.leb_le.
    split.
    - intros [Q | [_ Q]]; lia.
    - intros Q. destruct ps as [| q ps].
      + cbn [total_length fold_right] in Q. left. lia.
      + right. split; [reflexivity | exact Q]. }
  assert (K : forall q : action -> bool, silent q ->
              forall es x,
                Forall (fun e => closes_transport e = false
                                 /\ forall y, retriggers (Http e) y = false) es ->
                count q (trace (http_run es x)) = count q (trace x)).
  { intros q Sq es. induction es as [| e es IH]; intros x F; [reflexivity |].
    inversion F as [| e' es' [Fc Fr] F']; subst e' es'.
    change (http_run (e :: es) x) with (http_run es (http_client_callback e x)).
    rewrite IH by assumption.
    rewrite count_http_client_callback by assumption.
    rewrite Fc, Fr. cbn [andb]. lia. }
  assert (F : Forall (fun e => closes_transport e = false
                               /\ forall y, retriggers (Http e) y = false)
                     (plain_chunks (p :: ps))).
  { unfold plain_chunks. apply Forall_map, Forall_forall.
    intros q _. split; reflexivity. }
  split; [apply K; auto with flags | apply K; auto with flags].
Qed.

Lemma dispatch_all_closes (es : list event) (w : world) :
  closes (dispatch_all es w) = closes w \/
  is_state_set COMPLETED (dispatch_all es w) = true.
Proof.
  revert w. induction es as [| e es IH]; intros w; [now left |].
  change (dispatch_all (e :: es) w) with (dispatch_all es (dispatch e w)).
  assert (S : closes (dispatch e w) = closes w \/
              is_state_set COMPLETED (dispatch e w) = true).
  { unfold closes. rewrite count_dispatch by auto with flags.
    cbn [is_close]. rewrite andb_false_r.
    destruct e as [e | e]; cbn [dispatch]; [| left; lia].
    rewrite andb_true_r. destruct (closes_transport e) eqn:K; [| left; lia].
    right. rewrite http_client_callback_completed.
    destruct e; try discriminate; cbn [closes_transport completes] in *;
      rewrite K; cbn [orb]; apply orb_true_r. }
  destruct S as [S | S].
  - destruct (IH (dispatch e w)) as [I | I]; [left; congruence | now right].
  - right. now apply dispatch_all_keeps; [apply dispatch_keeps_completed |].
Qed.

(** X10.  The handlers close the transport only together with marking the
    download complete: after any sequence of events, either the transport
    was not closed at all or [COMPLETED] is set.  In particular a response
    other than 200, which sets [CANCELED], leaves the transport open. *)
Theorem transport_closed_only_when_completed (es : list event) (w : world) :
  (closes (dispatch_all es w) = closes w \/
   is_state_set COMPLETED (dispatch_all es w) = true) /\
  (forall code cl content,
      (code =? 200) = false ->
      closes (http_client_callback
                (HTTP_CLIENT_CALLBACK_RECV_RESPONSE code cl content) w) =
      closes w).
Proof.
  split; [apply dispatch_all_closes |].
  intros code cl content N. unfold closes.
  rewrite count_http_client_callback by auto with flags.
  cbn [closes_transport retriggers is_close]. rewrite N. cbn [andb]. lia.
Qed.

End ByCount.

Lemma chunks_complete_by_sum_witness :
  received_file_size
    (http_run (plain_chunks [([1], 1400); ([2], 1400); ([3], 1200)])
              (World 6 4000 0 0 [])) = 4000.
Proof.
  refine (proj1 (@chunks_complete_by_sum asf_main_h ([1], 1400)
                   [([2], 1400); ([3], 1200)] (World 6 4000 0 0 []) _ _ _ _)).
  - repeat constructor; cbn; lia.
  - reflexivity.
  - reflexivity.
  - reflexivity.
Defined.

(** ** Countdown timers *)

Lemma to_long_congr (x y : Z) : u32 x = u32 y -> to_long x = to_long y.
Proof.
  unfold to_long. now intros ->.
Qed.

Lemma to_long_small (x : Z) : - 2 ^ 31 <= x < 2 ^ 31 -> to_long x = x.
Proof.
  intros R. unfold to_long, u32.
  destruct (Z_lt_le_dec x 0) as [N | P].
  - rewrite <- (Z_mod_plus_full x 1 (2 ^ 32)).
    rewrite Z.mod_small by lia.
    destruct (Z.ltb_spec (x + 1 * 2 ^ 32) (2 ^ 31)); lia.
  - rewrite Z.mod_small by lia.
    destruct (Z.ltb_spec x (2 ^ 31)); lia.
Qed.

Lemma to_long_range (x : Z) : - 2 ^ 31 <= to_long x < 2 ^ 31.
Proof.
  unfold to_long, u32.
  pose proof (Z.mod_pos_bound x (2 ^ 32) eq_refl).
  destruct (Z.ltb_spec (x mod 2 ^ 32) (2 ^ 31)); lia.
Qed.

Lemma ticks_fields (k : nat) (w : world) :
  down_state (ticks k w) = down_state w /\
  http_file_size (ticks k w) = http_file_size w /\
  received_file_size (ticks k w) = received_file_size w /\
  trace (ticks k w) = trace w.
Proof.
  induction k as [| k IH]; [repeat split |].
  change (ticks (S k) w) with (SysTick_Handler (ticks k w)). exact IH.
Qed.

Lemma ticks_milliSeconds (k : nat) (w : world) :
  u32 (milliSeconds (ticks k w)) = u32 (milliSeconds w + Z.of_nat k).
Proof.
  induction k as [| k IH].
  - cbn [ticks Nat.iter]. now rewrite Z.add_0_r.
  - change (ticks (S k) w) with (SysTick_Handler (ticks k w)).
    cbn [SysTick_Handler milliSeconds]. unfold u32 in *.
    rewrite Z.mod_mod by discriminate.
    rewrite <- Zplus_mod_idemp_l, IH, Zplus_mod_idemp_l.
    f_equal. lia.
Qed.

(** The signed time left after [k] ticks. *)
Lemma to_long_after_ticks (t : Timer) (k : nat) (w : world) :
  to_long (end_time t - milliSeconds (ticks k w)) =
  to_long (end_time t - milliSeconds w - Z.of_nat k).
Proof.
  apply to_long_congr. unfold u32.
  rewrite <- Zminus_mod_idemp_r.
  pose proof (ticks_milliSeconds k w) as M. unfold u32 in M.
  rewrite M, Zminus_mod_idemp_r. f_equal. lia.
Qed.

Lemma timer_left_range (t : Timer) (w : world) :
  0 <= TimerLeftMS t w < 2 ^ 31.
Proof.
  unfold TimerLeftMS. cbv zeta.
  pose proof (to_long_range (end_time t - milliSeconds w)) as R.
  destruct (Z.ltb_spec (to_long (end_time t - milliSeconds w)) 0); lia.
Qed.

Section Timers.

(** X11.  A timer armed for [timeout] milliseconds, less than [2^31], counts
    down with the tick interrupt whatever the clock value, also across the
    wrap-around of the 32-bit clock: after [k] ticks it reports
    [timeout - k] milliseconds left, and zero from the deadline on.  It is
    not yet expired at the deadline itself ([k = timeout], zero left) and is
    expired one tick later, up to [2^31] ticks past the arming.  The same
    holds for [TimerCountdown] with its seconds taken times 1000. *)
Theorem timer_counts_down (timeout : Z) (k : nat) (w : world) :
  0 <= timeout < 2 ^ 31 ->
  Z.of_nat k <= timeout + 2 ^ 31 ->
  TimerIsExpired (TimerCountdownMS timeout w) (ticks k w)
    = (timeout <? Z.of_nat k) /\
  TimerLeftMS (TimerCountdownMS timeout w) (ticks k w)
    = Z.max 0 (timeout - Z.of_nat k) /\
  (forall seconds : Z,
      seconds * 1000 = timeout ->
      TimerIsExpired (TimerCountdown seconds w) (ticks k w)
        = (timeout <? Z.of_nat k) /\
      TimerLeftMS (TimerCountdown seconds w) (ticks k w)
        = Z.max 0 (timeout - Z.of_nat k)).
Proof.
  intros R K.
  assert (L : to_long (end_time (TimerCountdownMS timeout w)
                       - milliSeconds (ticks k w)) = timeout - Z.of_nat k).
  { rewrite to_long_after_ticks. cbn [TimerCountdownMS end_time].
    rewrite <- (to_long_small (timeout - Z.of_nat k)) by lia.
    apply to_long_congr. unfold u32.
    replace ((milliSeconds w + timeout) mod 2 ^ 32 - milliSeconds w
             - Z.of_nat k)
      with ((milliSeconds w + timeout) mod 2 ^ 32
            - (milliSeconds w + Z.of_nat k)) by ring.
    rewrite Zminus_mod_idemp_l. f_equal. ring. }
  assert (E : TimerIsExpired (TimerCountdownMS timeout w) (ticks k w)
              = (timeout <? Z.of_nat k) /\
              TimerLeftMS (TimerCountdownMS timeout w) (ticks k w)
              = Z.max 0 (timeout - Z.of_nat k)).
  { unfold TimerIsExpired, TimerLeftMS. cbv zeta. rewrite L. split.
    - destruct (Z.ltb_spec (timeout - Z.of_nat k) 0);
        destruct (Z.ltb_spec timeout (Z.of_nat k)); lia.
    - destruct (Z.ltb_spec (timeout - Z.of_nat k) 0); lia. }
  split; [apply E |]. split; [apply E |].
  intros seconds S.
  assert (T : TimerCountdown seconds w = TimerCountdownMS timeout w).
  { unfold TimerCountdown, TimerCountdownMS. rewrite S.
    f_equal. unfold u32. now rewrite Zplus_mod_idemp_r. }
  rewrite T. exact E.
Qed.

(** X12.  The time left is never negative and stays below [2^31]; an expired
    timer reports zero, and a timer that is not expired reports the
    distance from the clock to its deadline modulo [2^32]. *)
Theorem timer_left_bounds (t : Timer) (w : world) :
  0 <= TimerLeftMS t w < 2 ^ 31 /\
  if TimerIsExpired t w
  then TimerLeftMS t w = 0
  else TimerLeftMS t w = u32 (end_time t - milliSeconds w).
Proof.
  unfold TimerLeftMS, TimerIsExpired. cbv zeta.
  pose proof (to_long_range (end_time t - milliSeconds w)) as R.
  destruct (Z.ltb_spec (to_long (end_time t - milliSeconds w)) 0) as [N | P].
  - split; [lia | reflexivity].
  - split; [lia |]. revert P. unfold to_long.
    pose proof (Z.mod_pos_bound (end_time t - milliSeconds w) (2 ^ 32) eq_refl).
    unfold u32 in *.
    destruct (Z.ltb_spec ((end_time t - milliSeconds w) mod 2 ^ 32) (2 ^ 31));
      lia.
Qed.

(** X13.  A timeout of [2^31] milliseconds or more does not fit the signed
    difference the expiry test takes: the timer is expired as soon as it is
    armed.  For [TimerCountdown] that is any number of seconds from 2147484
    up to 4294967. *)
Theorem timer_long_timeout_expires_at_once (timeout : Z) (w : world) :
  2 ^ 31 <= timeout < 2 ^ 32 ->
  TimerIsExpired (TimerCountdownMS timeout w) w = true /\
  TimerLeftMS (TimerCountdownMS timeout w) w = 0 /\
  (forall seconds : Z,
      seconds * 1000 = timeout ->
      TimerIsExpired (TimerCountdown seconds w) w = true).
Proof.
  intros R.
  assert (L : to_long (end_time (TimerCountdownMS timeout w) - milliSeconds w)
              = timeout - 2 ^ 32).
  { cbn [TimerCountdownMS end_time]. unfold to_long, u32.
    rewrite Zminus_mod_idemp_l.
    replace (milliSeconds w + timeout - milliSeconds w) with timeout by ring.
    rewrite Z.mod_small by lia.
    destruct (Z.ltb_spec timeout (2 ^ 31)); lia. }
  assert (E : TimerIsExpired (TimerCountdownMS timeout w) w = true).
  { unfold TimerIsExpired. rewrite L. apply Z.ltb_lt. lia. }
  split; [exact E |]. split.
  - unfold TimerLeftMS. cbv zeta. rewrite L.
    destruct (Z.ltb_spec (timeout - 2 ^ 32) 0); lia.
  - intros seconds S.
    assert (T : TimerCountdown seconds w = TimerCountdownMS timeout w).
    { unfold TimerCountdown, TimerCountdownMS. rewrite S.
      f_equal. unfold u32. now rewrite Zplus_mod_idemp_r. }
    now rewrite T.
Qed.

End Timers.

Lemma timer_counts_down_witness :
  TimerIsExpired (TimerCountdownMS 3 (World 0 0 0 4294967294 []))
                 (ticks 4 (World 0 0 0 4294967294 [])) = true /\
  TimerLeftMS (TimerCountdownMS 3 (World 0 0 0 4294967294 []))
              (ticks 2 (World 0 0 0 4294967294 [])) = 1.
Proof.
  split.
  - refine (proj1 (timer_counts_down 3 4 (World 0 0 0 4294967294 []) _ _));
      cbn; lia.
  - refine (proj1 (proj2
              (timer_counts_down 3 2 (World 0 0 0 4294967294 []) _ _)));
      cbn; lia.
Defined.

Lemma timer_long_timeout_expires_at_once_witness :
  TimerIsExpired (TimerCountdown 2147484 (World 0 0 0 5 []))
                 (World 0 0 0 5 []) = true.
Proof.
  refine (proj2 (proj2
            (timer_long_timeout_expires_at_once 2147484000
               (World 0 0 0 5 []) _)) 2147484 _).
  - lia.
  - reflexivity.
Defined.

(** ** The main loop without events *)

Section IdleLoop.

Context {H : MainH}.

Lemma one_second_block_globals (m : main_state) :
  down_state (globals (one_second_block m)) = down_state (globals m) /\
  http_file_size (globals (one_second_block m)) = http_file_size (globals m) /\
  received_file_size (globals (one_second_block m))
    = received_file_size (globals m) /\
  requests (globals (one_second_block m)) = requests (globals m).
Proof.
  unfold one_second_block.
  destruct (TimerIsExpired (oneSecondTimer m) (globals m)); [| auto].
  cbn [globals]. repeat split.
  unfold requests. rewrite count_printf, !count_emit by auto with flags.
  cbn. lia.
Qed.

Lemma watchdog_block_globals (m : main_state) :
  terminal (globals m) = false ->
  down_state (globals (watchdog_block m)) = down_state (globals m) /\
  http_file_size (globals (watchdog_block m)) = http_file_size (globals m) /\
  received_file_size (globals (watchdog_block m))
    = received_file_size (globals m) /\
  requests (globals (watchdog_block m)) = requests (globals m).
Proof.
  intros T. destruct (TimerIsExpired (timer m) (globals m)) eqn:E.
  - rewrite watchdog_block_rearm by assumption. repeat split.
    unfold requests. rewrite count_printf, count_emit by auto with flags.
    cbn. lia.
  - rewrite watchdog_block_idle by assumption. auto.
Qed.

Lemma idle_step_globals (m m' : main_state) :
  idle_step m m' ->
  terminal (globals m) = false ->
  down_state (globals m') = down_state (globals m) /\
  http_file_size (globals m') = http_file_size (globals m) /\
  received_file_size (globals m') = received_file_size (globals m) /\
  requests (globals m') = requests (globals m).
Proof.
  intros [m0 | m0 | m0] T.
  - repeat split.
  - apply one_second_block_globals.
  - now apply watchdog_block_globals.
Qed.

(** X14.  With neither [COMPLETED] nor [CANCELED] set, the main loop on its
    own never gets an attempt going again: however the tick interrupt and
    the two timer blocks interleave, and however often the watchdog expires,
    the state flags and byte counters stay as they are and no request is
    sent.  In particular nothing is requested after start-up until the
    driver delivers an event. *)
Theorem idle_loop_changes_nothing (m m' : main_state) :
  idle_run m m' ->
  is_state_set COMPLETED (globals m) || is_state_set CANCELED (globals m)
    = false ->
  (down_state (globals m') = down_state (globals m) /\
   http_file_size (globals m') = http_file_size (globals m) /\
   received_file_size (globals m') = received_file_size (globals m) /\
   requests (globals m') = requests (globals m)) /\
  (m = main_init ->
   down_state (globals m') = NOT_READY /\ requests (globals m') = 0%nat).
Proof.
  intros R T.
  assert (G : down_state (globals m') = down_state (globals m) /\
              http_file_size (globals m') = http_file_size (globals m) /\
              received_file_size (globals m') = received_file_size (globals m) /\
              requests (globals m') = requests (globals m)).
  { fold (terminal (globals m)) in T.
    induction R as [m | m m1 m2 S R IH]; [auto |].
    destruct (idle_step_globals m m1 S T) as (D1 & S1 & R1 & Q1).
    assert (T1 : terminal (globals m1) = false).
    { unfold terminal in *.
      now rewrite !(is_state_set_ext _ (globals m1) (globals m) D1). }
    destruct (IH T1) as (D2 & S2 & R2 & Q2).
    repeat split; congruence. }
  split; [exact G |].
  intros ->. destruct G as (D & _ & _ & Q). rewrite D, Q. split; reflexivity.
Qed.

(** X15.  The one-second block, when its timer has expired, toggles the LED
    once and rearms its timer for one second, so that it is not expired
    right after; the line it prints carries the whole seconds left on the
    watchdog timer, [TimerLeftMS] of that timer divided by 1000, a number
    from 0 to 2147483.  Expired or not, it leaves the watchdog timer, the
    state flags and the byte counters alone and sends no request. *)
Theorem one_second_block_effect (m : main_state) :
  let m' := one_second_block m in
  timer m' = timer m /\
  down_state (globals m') = down_state (globals m) /\
  http_file_size (globals m') = http_file_size (globals m) /\
  received_file_size (globals m') = received_file_size (globals m) /\
  requests (globals m') = requests (globals m) /\
  if TimerIsExpired (oneSecondTimer m) (globals m) then
    TimerIsExpired (oneSecondTimer m') (globals m') = false /\
    TimerLeftMS (oneSecondTimer m') (globals m') = 1000 /\
    0 <= TimerLeftMS (timer m) (globals m) / 1000 <= 2147483 /\
    trace (globals m') =
      trace (globals m) ++
        [LedToggle; TimerArm OneSecondTimer 1;
         Printf (MsgTimeLeft (TimerLeftMS (timer m) (globals m) / 1000))]
  else m' = m.
Proof.
  intros m'.
  destruct (one_second_block_globals m) as (D & S & R & Q). fold m' in D, S, R, Q.
  split.
  { subst m'. unfold one_second_block.
    now destruct (TimerIsExpired (oneSecondTimer m) (globals m)). }
  do 4 (split; [assumption |]).
  subst m'. unfold one_second_block.
  destruct (TimerIsExpired (oneSecondTimer m) (globals m)); [| reflexivity].
  cbn [globals oneSecondTimer].
  split; [| split; [| split]].
  - apply TimerCountdown_armed; [reflexivity | lia].
  - apply TimerCountdown_armed; [reflexivity | lia].
  - pose proof (timer_left_range (timer m) (globals m)) as B.
    split.
    + apply Z.div_pos; lia.
    + apply Z.lt_succ_r. apply Z.div_lt_upper_bound; lia.
  - change (TimerLeftMS (timer m)
              (emit (TimerArm OneSecondTimer 1) (emit LedToggle (globals m))))
      with (TimerLeftMS (timer m) (globals m)).
    cbn [trace printf emit]. now rewrite <- !app_assoc.
Qed.

End IdleLoop.

Lemma idle_loop_changes_nothing_witness :
  requests
    (globals
       (watchdog_block
          {| globals := World 6 5000 1400 70000 [];
             timer := {| end_time := 60000 |};
             oneSecondTimer := {| end_time := 70500 |} |})) = 0%nat.
Proof.
  refine (proj2 (proj2 (proj2 (proj1
            (@idle_loop_changes_nothing asf_main_h
               {| globals := World 6 5000 1400 70000 [];
                  timer := {| end_time := 60000 |};
                  oneSecondTimer := {| end_time := 70500 |} |}
               _ _ _))))).
  - eapply idle_next; [apply idle_watchdog | apply idle_stop].
  - reflexivity.
Defined.

(** ** Completion without the bytes *)

Section EarlyCompletion.

Context {H : MainH}.

(** X16.  [COMPLETED] does not tell that the expected bytes were received.
    A 200 response within the buffer capacity whose body is absent or empty
    (a null pointer, or a content length of zero) is dropped by
    [store_file_packet], and still the handler closes the transport and sets
    [COMPLETED] with nothing received.  A chunk with the final-chunk signal
    does the same whatever the expected length, after counting the chunk if
    it carries data. *)
Theorem completion_without_bytes (w : world) :
  (forall cl content,
      cl <= MAIN_BUFFER_MAX_SIZE ->
      counted content cl = false ->
      let w' := http_client_callback
                  (HTTP_CLIENT_CALLBACK_RECV_RESPONSE 200 cl content) w in
      is_state_set COMPLETED w' = true /\
      http_file_size w' = cl /\
      received_file_size w' = 0 /\
      is_state_set DOWNLOADING w' = is_state_set DOWNLOADING w /\
      closes w' = S (closes w) /\
      trace w' = trace w ++ [Printf (MsgResponse 200 cl);
                             Printf MsgCompletedResponse;
                             Printf MsgEmptyData; HttpClose]) /\
  (forall data length is_complete,
      is_complete <> 0 ->
      let w' := http_client_callback
                  (HTTP_CLIENT_CALLBACK_RECV_CHUNKED_DATA
                     data length is_complete) w in
      is_state_set COMPLETED w' = true /\
      http_file_size w' = http_file_size w /\
      received_file_size w' =
        (if counted data length then accumulated length w
         else received_file_size w) /\
      closes w' = S (closes w)).
Proof.
  flag_facts. split.
  - intros cl content L K w'.
    pose proof (recv_response_lengths 200 cl content w) as R.
    cbv zeta in R. fold w' in R. change (200 =? 200) with true in R.
    cbv iota in R. rewrite K, andb_false_r in R. destruct R as [Rs Rr].
    assert (L' : (cl <=? MAIN_BUFFER_MAX_SIZE) = true) by now apply Z.leb_le.
    split.
    { subst w'. rewrite http_client_callback_completed. cbn [completes].
      rewrite L'. apply orb_true_r. }
    split; [exact Rs |]. split; [exact Rr |].
    split.
    { subst w'. rewrite http_client_callback_downloading.
      rewrite K, andb_false_r. apply orb_false_r. }
    split.
    { unfold closes. subst w'.
      rewrite count_http_client_callback by auto with flags.
      cbn [closes_transport retriggers is_close]. rewrite L'. cbn. lia. }
    subst w'. cbn [http_client_callback]. cbv zeta.
    change (200 =? 200) with true. cbv iota. rewrite L'.
    rewrite store_file_packet_ignored by assumption.
    cbn. now rewrite <- !app_assoc.
  - intros data length ic N w'.
    assert (N' : (ic =? 0) = false) by now apply Z.eqb_neq.
    split.
    { subst w'. rewrite http_client_callback_completed. cbn [completes].
      rewrite N'. cbn [negb orb]. apply orb_true_r. }
    assert (E : w' = add_state COMPLETED
                       (emit HttpClose
                          (printf MsgCompletedChunked
                             (store_file_packet data length w)))).
    { subst w'. cbn [http_client_callback]. cbv zeta. now rewrite N'. }
    split; [| split].
    + rewrite E. through_setters. destruct (counted data length) eqn:K.
      * now destruct (store_file_packet_counted_fields data length w K)
          as (_ & -> & _).
      * now rewrite store_file_packet_ignored.
    + rewrite E. through_setters. destruct (counted data length) eqn:K.
      * now destruct (store_file_packet_counted_fields data length w K)
          as (-> & _).
      * now rewrite store_file_packet_ignored.
    + unfold closes. subst w'.
      rewrite count_http_client_callback by auto with flags.
      cbn [closes_transport retriggers is_close]. rewrite N'. cbn. lia.
Qed.

End EarlyCompletion.
